(** * Feature engineering notebook of march-madness-predictions

    A shallow embedding of the code cells of
    [notebooks/02_feature_engineering.ipynb] (team strength aggregation,
    seed annotation, joining of team statistics onto tournament games,
    differential features) together with the part of Python and pandas
    those cells rely on.

    Conventions.
    - A DataFrame is the list of its rows, in row order; each frame has its
      own record type whose fields are the frame's columns.
    - A float64 cell is an exact rational, [NaN] or an infinity; rounding is
      not modelled.  Integer columns that went through a left merge (and may
      hold NaN) are float64 columns, as in pandas.
    - Python exceptions are values of [PyError]; a computation that may raise
      returns a [result].
    - The repository pins no pandas version.  Where the versions differ (the
      name of the index of [total_games]) the cells take the version as
      their first argument, [Pandas.version].
    - Cells assign global names.  [feature_table] is cells 2 to 5 on the
      tables as cell 1 loads them; [notebook] is the same cells on the names
      as an earlier execution may have left them ([Namespace]). *)

From Stdlib Require Import ZArith QArith Qreduction List String Ascii Bool Lia.
From Stdlib Require Import Permutation.
Import ListNotations.

Open Scope Z_scope.

(* ================================================================== *)
(** ** Python: exceptions, string slices, [int] on strings *)

Module Py.

Inductive PyError : Type :=
| KeyError (column : string)
| ValueError (literal : string).

Inductive result (A : Type) : Type :=
| Ok (a : A)
| Raise (e : PyError).

Arguments Ok {A} a.
Arguments Raise {A} e.

Definition bind {A B : Type} (m : result A) (k : A -> result B) : result B :=
  match m with
  | Ok a => k a
  | Raise e => Raise e
  end.

(** [s[i:j]] for [0 <= i <= j]: never raises, a short string is cut. *)
Definition slice (i j : nat) (s : string) : string := substring i (j - i) s.

Definition is_digit (c : ascii) : bool :=
  let n := nat_of_ascii c in ((48 <=? n) && (n <=? 57))%nat.

Definition digit_value (c : ascii) : Z := Z.of_nat (nat_of_ascii c) - 48.

(** ASCII white space as the integer parser skips it: TAB, LF, VT, FF, CR
    and the space. *)
Definition is_space (c : ascii) : bool :=
  let n := nat_of_ascii c in (((9 <=? n) && (n <=? 13)) || (n =? 32))%nat.

Definition is_underscore (c : ascii) : bool := (nat_of_ascii c =? 95)%nat.

Fixpoint skip_spaces (s : list ascii) : list ascii :=
  match s with
  | c :: r => if is_space c then skip_spaces r else s
  | [] => []
  end.

(** The digits of a base 10 literal, read after its first digit: a single
    underscore is allowed between two digits, nowhere else. *)
Fixpoint digits (acc : Z) (s : list ascii) : option (Z * list ascii) :=
  match s with
  | [] => Some (acc, [])
  | c :: r =>
      if is_digit c then digits (10 * acc + digit_value c) r
      else if is_underscore c then
        match r with
        | d :: r' =>
            if is_digit d then digits (10 * acc + digit_value d) r' else None
        | [] => None
        end
      else Some (acc, s)
  end.

Definition unsigned_literal (s : list ascii) : option Z :=
  match s with
  | c :: r =>
      if is_digit c then
        match digits (digit_value c) r with
        | Some (v, rest) =>
            match skip_spaces rest with
            | [] => Some v
            | _ :: _ => None
            end
        | None => None
        end
      else None
  | [] => None
  end.

(** [int(s)] for an ASCII string [s]: optional white space, an optional
    sign, decimal digits, optional white space; [ValueError] otherwise. *)
Definition int (s : string) : result Z :=
  let body := skip_spaces (list_ascii_of_string s) in
  let parsed :=
    match body with
    | c :: r =>
        if Ascii.eqb c "+" then unsigned_literal r
        else if Ascii.eqb c "-" then option_map Z.opp (unsigned_literal r)
        else unsigned_literal body
    | [] => None
    end in
  match parsed with
  | Some v => Ok v
  | None => Raise (ValueError s)
  end.

End Py.

Import Py.

Notation "x <- m ;; k" := (Py.bind m (fun x => k))
  (at level 61, m at next level, right associativity).

(* ================================================================== *)
(** ** Seed codes (cell 3, first statement) *)

(** [lambda x: int(x[1:3])] *)
Definition SeedValue_of (x : string) : result Z := Py.int (Py.slice 1 3 x).

(* ================================================================== *)
(** ** float64 cells *)

(** A float64 value: a rational kept in lowest terms, an infinity or NaN.
    NaN is also what pandas stores in a cell that a left merge could not
    fill. *)
Inductive float64 : Type :=
| Finite (q : Q)
| PosInf
| NegInf
| NaN.

Definition fin (q : Q) : float64 := Finite (Qred q).

Definition of_int (n : Z) : float64 := fin (inject_Z n).

Definition fneg (a : float64) : float64 :=
  match a with
  | Finite q => fin (- q)
  | PosInf => NegInf
  | NegInf => PosInf
  | NaN => NaN
  end.

Definition fsub (a b : float64) : float64 :=
  match a, b with
  | NaN, _ | _, NaN => NaN
  | Finite p, Finite q => fin (p - q)
  | Finite _, PosInf => NegInf
  | Finite _, NegInf => PosInf
  | PosInf, PosInf => NaN
  | PosInf, _ => PosInf
  | NegInf, NegInf => NaN
  | NegInf, _ => NegInf
  end.

(** True division of numpy: a zero divisor gives an infinity or NaN and no
    exception. *)
Definition fdiv (a b : float64) : float64 :=
  match a, b with
  | NaN, _ | _, NaN => NaN
  | Finite p, Finite q =>
      if Qeq_bool q 0 then
        match Qcompare p 0 with
        | Eq => NaN
        | Gt => PosInf
        | Lt => NegInf
        end
      else fin (p / q)
  | Finite _, (PosInf | NegInf) => fin 0
  | (PosInf | NegInf), (PosInf | NegInf) => NaN
  | PosInf, Finite q => if Qle_bool 0 q then PosInf else NegInf
  | NegInf, Finite q => if Qle_bool 0 q then NegInf else PosInf
  end.

(** Mean of a non-empty group of integer cells. *)
Definition mean (xs : list Z) : float64 :=
  fdiv (of_int (fold_right Z.add 0 xs)) (of_int (Z.of_nat (List.length xs))).

(* ================================================================== *)
(** ** pandas: group keys, Series with a named index, left merge *)

Module Pandas.

(** Keys of a [groupby]: each distinct key once, in increasing order. *)
Fixpoint insert_key (k : Z) (l : list Z) : list Z :=
  match l with
  | [] => [k]
  | x :: r =>
      if k <? x then k :: l
      else if k =? x then l
      else x :: insert_key k r
  end.

Definition group_keys (column : list Z) : list Z :=
  fold_right insert_key [] column.

Definition count (k : Z) (column : list Z) : Z :=
  Z.of_nat (List.length (filter (Z.eqb k) column)).

(** An integer Series: the name of its index and its (label, value)
    entries. *)
Record Series : Type := mkSeries {
  index_name : option string;
  entries : list (Z * Z)
}.

Definition labels (s : Series) : list Z := map fst (entries s).

(** [df.groupby(col).size()]: the index carries the name of the grouping
    column. *)
Definition groupby_size (col_name : string) (column : list Z) : Series :=
  {| index_name := Some col_name;
     entries := map (fun k => (k, count k column)) (group_keys column) |}.

Definition value_or_0 (k : Z) (s : Series) : Z :=
  match find (fun e => fst e =? k) (entries s) with
  | Some e => snd e
  | None => 0
  end.

Definition same_name (a b : option string) : option string :=
  match a, b with
  | Some x, Some y => if String.eqb x y then Some x else None
  | _, _ => None
  end.

Definition same_labels (a b : list Z) : bool :=
  if list_eq_dec Z.eq_dec a b then true else false.

(** The notebook pins no pandas version, and the versions differ on the
    name of an index obtained by aligning two indexes of different names:
    up to pandas 2.2 the joined index keeps a name only if both indexes had
    the same one; pandas 3 keeps the name of the left index. *)
Inductive version : Type :=
| pandas_2
| pandas_3.

Definition joined_index_name (v : version) (a b : option string)
  : option string :=
  match v with
  | pandas_2 => same_name a b
  | pandas_3 => a
  end.

(** [a.add(b, fill_value=0)].  When both indexes hold the same labels
    ([Index.equals], which does not look at names) the values are added
    position by position and the result keeps the index of [a], name
    included.  Otherwise both sides are aligned on the sorted union of the
    labels, a label missing on one side counts as 0 there, and the name of
    the joined index is the one the pandas version gives it. *)
Definition add_fill_0 (v : version) (a b : Series) : Series :=
  if same_labels (labels a) (labels b) then
    {| index_name := index_name a;
       entries :=
         map (fun p => (fst (fst p), snd (fst p) + snd (snd p)))
             (combine (entries a) (entries b)) |}
  else
    {| index_name := joined_index_name v (index_name a) (index_name b);
       entries :=
         map (fun k => (k, value_or_0 k a + value_or_0 k b))
             (group_keys (labels a ++ labels b)) |}.

(** [s.reset_index(name=...)]: the index becomes a column named after the
    index, or ["index"] when the index has no name.  The frame is kept as
    the name of that column and the rows. *)
Record KeyedFrame : Type := mkKeyedFrame {
  key_column : string;
  rows : list (Z * Z)
}.

Definition reset_index (s : Series) : KeyedFrame :=
  {| key_column :=
       match index_name s with
       | Some n => n
       | None => "index"%string
       end;
     rows := entries s |}.

(** [left.merge(right, left_on=..., right_on=..., how="left")] on an integer
    key: every left row is kept, in order; it is paired with each right row
    of the same key, in the order of [right], or once with nothing when no
    right row has that key. *)
Definition merge_left {A B C : Type} (left_on : A -> Z) (right_on : B -> Z)
    (row : A -> option B -> C) (left : list A) (right : list B) : list C :=
  flat_map
    (fun a =>
       match filter (fun b => right_on b =? left_on a) right with
       | [] => [row a None]
       | matches => map (fun b => row a (Some b)) matches
       end)
    left.

(** [s.apply(f)]: [f] is applied to the cells in row order, the first
    exception aborts the whole call. *)
Fixpoint Series_apply {A B : Type} (f : A -> result B) (s : list A)
  : result (list B) :=
  match s with
  | [] => Ok []
  | a :: r =>
      Py.bind (f a) (fun b => Py.bind (Series_apply f r) (fun bs => Ok (b :: bs)))
  end.

(** [df.groupby(key)[value].mean()]: one entry per distinct key, in
    increasing key order, the mean taken over the rows of that key. *)
Definition groupby_mean {A : Type} (key value : A -> Z) (df : list A)
  : list (Z * float64) :=
  map (fun k => (k, mean (map value (filter (fun r => key r =? k) df))))
      (group_keys (map key df)).

(** The rows of a frame read through the key column [name]; a frame
    without such a column raises [KeyError]. *)
Definition on_key (name : string) (f : KeyedFrame) : result (list (Z * Z)) :=
  if String.eqb (key_column f) name then Ok (rows f) else Raise (KeyError name).

(** A column taken from the matched right row, NaN when there is none. *)
Definition cell {B : Type} (column : B -> float64) (b : option B) : float64 :=
  match b with
  | Some r => column r
  | None => NaN
  end.

End Pandas.

Import Pandas.

(* ================================================================== *)
(** ** The input tables *)

(** A row of the regular season or tournament results. *)
Record GameRecord : Type := mkGame {
  Season : Z;
  DayNum : Z;
  WTeamID : Z;
  WScore : Z;
  LTeamID : Z;
  LScore : Z;
  WLoc : string;
  NumOT : Z
}.

(** A row of the seed table. *)
Record SeedEntry : Type := mkSeed {
  seed_Season : Z;
  Seed : string;
  TeamID : Z
}.

(** The seed table: cell 3 adds the column [SeedValue] to it in place. *)
Record SeedsFrame : Type := mkSeeds {
  seed_rows : list SeedEntry;
  SeedValue_column : option (list Z)
}.

(* ================================================================== *)
(** ** Cell 2: team strength *)

(** [season_results.groupby("WTeamID").size().reset_index(name="Wins")] *)
Definition win_counts (season_results : list GameRecord) : KeyedFrame :=
  reset_index (groupby_size "WTeamID" (map WTeamID season_results)).

(** [season_results.groupby("WTeamID").size()
       .add(season_results.groupby("LTeamID").size(), fill_value=0)
       .reset_index(name="TotalGames")] *)
Definition total_games (pd : Pandas.version) (season_results : list GameRecord)
  : KeyedFrame :=
  reset_index
    (add_fill_0 pd (groupby_size "WTeamID" (map WTeamID season_results))
                   (groupby_size "LTeamID" (map LTeamID season_results))).

(** [season_results.groupby("WTeamID")["WScore"].mean()] *)
Definition avg_points_scored (season_results : list GameRecord)
  : list (Z * float64) :=
  groupby_mean WTeamID WScore season_results.

(** [season_results.groupby("LTeamID")["LScore"].mean()] *)
Definition avg_points_allowed (season_results : list GameRecord)
  : list (Z * float64) :=
  groupby_mean LTeamID LScore season_results.

(** A row of [team_stats] at the end of cell 2. *)
Record TeamStats : Type := mkTeamStats {
  team_WTeamID : Z;
  Wins : Z;
  TotalGames : float64;
  WinPercentage : float64;
  AvgPointsScored : float64;
  AvgPointsAllowed : float64;
  PointDifferential : float64
}.

(** The frame [team_stats] built by cell 2.  The merge of line 77 looks up
    the column [WTeamID] in both frames and raises [KeyError] when
    [total_games] has none. *)
Definition team_stats (pd : Pandas.version) (season_results : list GameRecord)
  : result (list TeamStats) :=
  wins <- on_key "WTeamID" (win_counts season_results) ;;
  totals <- on_key "WTeamID" (total_games pd season_results) ;;
  (* win_counts.merge(total_games, left_on="WTeamID", right_on="WTeamID", how="left") *)
  let merged :=
    merge_left fst fst
      (fun w t => (fst w, snd w, cell (fun e => of_int (snd e)) t))
      wins totals in
  (* team_stats["WinPercentage"] = team_stats["Wins"] / team_stats["TotalGames"] *)
  let with_pct :=
    map (fun '(id, wins, total) => (id, wins, total, fdiv (of_int wins) total))
        merged in
  (* team_stats.merge(avg_points_scored, on="WTeamID", how="left") *)
  let with_scored :=
    merge_left (fun '(id, _, _, _) => id) fst
      (fun '(id, wins, total, pct) s => (id, wins, total, pct, cell snd s))
      with_pct (avg_points_scored season_results) in
  (* team_stats.merge(avg_points_allowed, left_on="WTeamID", right_on="LTeamID", how="left") *)
  let with_allowed :=
    merge_left (fun '(id, _, _, _, _) => id) fst
      (fun '(id, wins, total, pct, scored) a =>
         (id, wins, total, pct, scored, cell snd a))
      with_scored (avg_points_allowed season_results) in
  (* team_stats["PointDifferential"] = AvgPointsScored - AvgPointsAllowed;
     the column LTeamID is dropped *)
  Ok (map (fun '(id, wins, total, pct, scored, allowed) =>
             {| team_WTeamID := id;
                Wins := wins;
                TotalGames := total;
                WinPercentage := pct;
                AvgPointsScored := scored;
                AvgPointsAllowed := allowed;
                PointDifferential := fsub scored allowed |})
          with_allowed).

(* ================================================================== *)
(** ** Cell 3: seeds *)

(** [seeds["SeedValue"] = seeds["Seed"].apply(lambda x: int(x[1:3]))]: the
    column is computed from [Seed] and written into the frame, replacing a
    column of that name if there is one. *)
Definition assign_SeedValue (seeds : SeedsFrame) : result SeedsFrame :=
  values <- Series_apply SeedValue_of (map Seed (seed_rows seeds)) ;;
  Ok {| seed_rows := seed_rows seeds; SeedValue_column := Some values |}.

(** [seeds[["TeamID", "SeedValue"]]] *)
Definition TeamID_SeedValue (seeds : SeedsFrame) : result (list (Z * Z)) :=
  match SeedValue_column seeds with
  | Some values => Ok (combine (map TeamID (seed_rows seeds)) values)
  | None => Raise (KeyError "SeedValue")
  end.

(** A row of [team_stats] at the end of cell 3. *)
Record SeededTeamStats : Type := mkSeeded {
  stats : TeamStats;
  SeedValue : float64
}.

(** [team_stats.merge(seeds[["TeamID", "SeedValue"]], left_on="WTeamID",
                      right_on="TeamID", how="left")], [TeamID] dropped. *)
Definition merge_seeds (team_stats : list TeamStats) (seed_values : list (Z * Z))
  : list SeededTeamStats :=
  merge_left team_WTeamID fst
    (fun t s => {| stats := t; SeedValue := cell (fun e => of_int (snd e)) s |})
    team_stats seed_values.

(* ================================================================== *)
(** ** Cell 4: team statistics joined onto the tournament games *)

(** A row of [tourney_results] at the end of cell 4.  [game] stands for the
    columns of the tournament table; the columns [Wins], [TotalGames] and
    [WTeamID] exist on both sides of the second merge and get the suffixes
    [_x] and [_y] ([WTeamID_y] is dropped). *)
Record JoinedRow : Type := mkJoined {
  game : GameRecord;
  Wins_x : float64;
  TotalGames_x : float64;
  W_WinPercentage : float64;
  W_AvgPointsScored : float64;
  W_AvgPointsAllowed : float64;
  W_PointDifferential : float64;
  W_SeedValue : float64;
  Wins_y : float64;
  TotalGames_y : float64;
  L_WinPercentage : float64;
  L_AvgPointsScored : float64;
  L_AvgPointsAllowed : float64;
  L_PointDifferential : float64;
  L_SeedValue : float64
}.

Definition stat (column : TeamStats -> float64) (t : SeededTeamStats) : float64 :=
  column (stats t).

Definition join_row (g : GameRecord) (w l : option SeededTeamStats) : JoinedRow :=
  {| game := g;
     Wins_x := cell (fun t => of_int (Wins (stats t))) w;
     TotalGames_x := cell (stat TotalGames) w;
     W_WinPercentage := cell (stat WinPercentage) w;
     W_AvgPointsScored := cell (stat AvgPointsScored) w;
     W_AvgPointsAllowed := cell (stat AvgPointsAllowed) w;
     W_PointDifferential := cell (stat PointDifferential) w;
     W_SeedValue := cell SeedValue w;
     Wins_y := cell (fun t => of_int (Wins (stats t))) l;
     TotalGames_y := cell (stat TotalGames) l;
     L_WinPercentage := cell (stat WinPercentage) l;
     L_AvgPointsScored := cell (stat AvgPointsScored) l;
     L_AvgPointsAllowed := cell (stat AvgPointsAllowed) l;
     L_PointDifferential := cell (stat PointDifferential) l;
     L_SeedValue := cell SeedValue l |}.

Definition stats_key (t : SeededTeamStats) : Z := team_WTeamID (stats t).

(** [tourney_results.merge(team_stats, left_on="WTeamID", right_on="WTeamID",
                           how="left")] and the renaming to [W_...] *)
Definition merge_winner (tourney_results : list GameRecord)
    (team_stats : list SeededTeamStats)
  : list (GameRecord * option SeededTeamStats) :=
  merge_left WTeamID stats_key (fun g w => (g, w)) tourney_results team_stats.

(** [tourney_results.merge(team_stats, left_on="LTeamID", right_on="WTeamID",
                           how="left")] and the renaming to [L_...] *)
Definition merge_loser (with_winner : list (GameRecord * option SeededTeamStats))
    (team_stats : list SeededTeamStats) : list JoinedRow :=
  merge_left (fun r => LTeamID (fst r)) stats_key
    (fun r l => join_row (fst r) (snd r) l) with_winner team_stats.

Definition merge_tourney_results (tourney_results : list GameRecord)
    (team_stats : list SeededTeamStats) : list JoinedRow :=
  merge_loser (merge_winner tourney_results team_stats) team_stats.

(* ================================================================== *)
(** ** Cell 5: feature differences *)

(** A row of [model_data], columns in the order of the frame. *)
Record FeatureRow : Type := mkFeature {
  WinPercentage_Diff : float64;
  AvgPointsScored_Diff : float64;
  AvgPointsAllowed_Diff : float64;
  PointDifferential_Diff : float64;
  SeedValue_Diff : float64;
  Result : Z
}.

Definition features (r : JoinedRow) : FeatureRow :=
  {| WinPercentage_Diff := fsub (W_WinPercentage r) (L_WinPercentage r);
     AvgPointsScored_Diff := fsub (W_AvgPointsScored r) (L_AvgPointsScored r);
     AvgPointsAllowed_Diff := fsub (W_AvgPointsAllowed r) (L_AvgPointsAllowed r);
     PointDifferential_Diff :=
       fsub (W_PointDifferential r) (L_PointDifferential r);
     SeedValue_Diff := fsub (W_SeedValue r) (L_SeedValue r);
     Result := 1 |}.

Definition model_data (tourney_results : list JoinedRow) : list FeatureRow :=
  map features tourney_results.

(* ================================================================== *)
(** ** Cells 2 to 5 on the loaded tables *)

(** The three tables as cell 1 loads them. *)
Record Tables : Type := mkTables {
  season_results : list GameRecord;
  tourney_results : list GameRecord;
  seeds : SeedsFrame
}.

(** The frame [team_stats] as cell 4 reads it, and [seeds] as cell 3 leaves
    it. *)
Definition seeded_team_stats (pd : Pandas.version) (season : list GameRecord)
    (seeds : SeedsFrame) : result (list SeededTeamStats * SeedsFrame) :=
  ts <- team_stats pd season ;;
  seeds' <- assign_SeedValue seeds ;;
  seed_values <- TeamID_SeedValue seeds' ;;
  Ok (merge_seeds ts seed_values, seeds').

(** The rows of [tourney_results] after cell 4, when cells 2 to 4 run on the
    tables as loaded. *)
Definition joined_rows (pd : Pandas.version) (inp : Tables)
  : result (list JoinedRow) :=
  seeded <- seeded_team_stats pd (season_results inp) (seeds inp) ;;
  Ok (merge_tourney_results (tourney_results inp) (fst seeded)).

(** [model_data] after cell 5, when cells 2 to 5 run on the tables as
    loaded. *)
Definition feature_table (pd : Pandas.version) (inp : Tables)
  : result (list FeatureRow) :=
  rows <- joined_rows pd inp ;; Ok (model_data rows).

(* ================================================================== *)
(** ** The names of the notebook *)

(** What the name [tourney_results] is bound to: the table as loaded, or
    the frame that cell 4 binds the name to ([diffs] tells whether cell 5
    has added the five [_Diff] columns, whose cells are [features] of the
    row).  In the joined frame the column [WTeamID] of the tournament table
    is called [WTeamID_x]. *)
Inductive TourneyFrame : Type :=
| Loaded (rows : list GameRecord)
| Joined (rows : list JoinedRow) (diffs : bool).

(** The global names the cells read and assign.  [team_stats] and
    [model_data] are unbound in a kernel that has not run the cells. *)
Record Namespace : Type := mkNamespace {
  var_season_results : list GameRecord;
  var_tourney_results : TourneyFrame;
  var_seeds : SeedsFrame;
  var_team_stats : option (list SeededTeamStats);
  var_model_data : option (list FeatureRow)
}.

(** Cell 1 binds the three tables to what [read_csv] returns and leaves the
    other names as they are. *)
Definition cell_1 (files : Tables) (ns : Namespace) : Namespace :=
  {| var_season_results := season_results files;
     var_tourney_results := Loaded (tourney_results files);
     var_seeds := seeds files;
     var_team_stats := var_team_stats ns;
     var_model_data := var_model_data ns |}.

(** The names after cell 1 in a new kernel. *)
Definition started (files : Tables) : Namespace :=
  {| var_season_results := season_results files;
     var_tourney_results := Loaded (tourney_results files);
     var_seeds := seeds files;
     var_team_stats := None;
     var_model_data := None |}.

(** The two merges of cell 4 on whatever [tourney_results] is bound to: a
    frame that cell 4 has already joined has no column [WTeamID] left. *)
Definition cell_4 (frame : TourneyFrame) (team_stats : list SeededTeamStats)
  : result (list JoinedRow) :=
  match frame with
  | Loaded rows => Ok (merge_tourney_results rows team_stats)
  | Joined _ _ => Raise (KeyError "WTeamID")
  end.

(** Cells 2 to 4.  Cell 2 binds [team_stats], cell 3 writes the column
    [SeedValue] into [seeds] and binds [team_stats] again, cell 4 binds
    [tourney_results] to the joined frame.  A cell that raises stops the
    run; the names it leaves are not followed further. *)
Definition cells_2_to_4 (pd : Pandas.version) (ns : Namespace)
  : result Namespace :=
  seeded <- seeded_team_stats pd (var_season_results ns) (var_seeds ns) ;;
  joined <- cell_4 (var_tourney_results ns) (fst seeded) ;;
  Ok {| var_season_results := var_season_results ns;
        var_tourney_results := Joined joined false;
        var_seeds := snd seeded;
        var_team_stats := Some (fst seeded);
        var_model_data := var_model_data ns |}.

(** Cell 5 reads the [W_] and [L_] columns of [tourney_results], adds the
    five [_Diff] columns to that frame and binds [model_data]. *)
Definition cell_5 (ns : Namespace) : result Namespace :=
  match var_tourney_results ns with
  | Loaded _ => Raise (KeyError "W_WinPercentage")
  | Joined rows _ =>
      Ok {| var_season_results := var_season_results ns;
            var_tourney_results := Joined rows true;
            var_seeds := var_seeds ns;
            var_team_stats := var_team_stats ns;
            var_model_data := Some (model_data rows) |}
  end.

(** One execution of cells 2 to 5. *)
Definition notebook (pd : Pandas.version) (ns : Namespace) : result Namespace :=
  ns' <- cells_2_to_4 pd ns ;; cell_5 ns'.

(** Swapping the roles of winner and loser in a joined row. *)
Definition swap_sides (r : JoinedRow) : JoinedRow :=
  {| game := game r;
     Wins_x := Wins_y r;
     TotalGames_x := TotalGames_y r;
     W_WinPercentage := L_WinPercentage r;
     W_AvgPointsScored := L_AvgPointsScored r;
     W_AvgPointsAllowed := L_AvgPointsAllowed r;
     W_PointDifferential := L_PointDifferential r;
     W_SeedValue := L_SeedValue r;
     Wins_y := Wins_x r;
     TotalGames_y := TotalGames_x r;
     L_WinPercentage := W_WinPercentage r;
     L_AvgPointsScored := W_AvgPointsScored r;
     L_AvgPointsAllowed := W_AvgPointsAllowed r;
     L_PointDifferential := W_PointDifferential r;
     L_SeedValue := W_SeedValue r |}.

(* ================================================================== *)
(** ** Concrete tables used in the examples *)

Definition played (season w ws l ls : Z) : GameRecord :=
  {| Season := season; DayNum := 1; WTeamID := w; WScore := ws;
     LTeamID := l; LScore := ls; WLoc := "N"; NumOT := 0 |}.

Definition fresh_seeds (rows : list SeedEntry) : SeedsFrame :=
  {| seed_rows := rows; SeedValue_column := None |}.

(** Teams A = 1101, B = 1102, C = 1103.  A's win with 70 points cannot be
    over B, whose losing scores are 70, 75 and 80, so a third team takes
    part; it wins one game and loses one. *)
Definition scenario_season : list GameRecord :=
  [ played 2024 1101 70 1103 50;
    played 2024 1101 80 1102 75;
    played 2024 1101 90 1102 80;
    played 2024 1102 65 1101 60;
    played 2024 1103 85 1102 70 ].

Definition scenario : Tables :=
  {| season_results := scenario_season;
     tourney_results := [ played 2024 1101 88 1102 75 ];
     seeds := fresh_seeds [ mkSeed 2024 "W02" 1101; mkSeed 2024 "W07" 1102 ] |}.

(** Two seasons of games between teams 1101 and 1102, seeds for both
    seasons, one tournament game in the second season. *)
Definition two_seasons : Tables :=
  {| season_results :=
       [ played 2023 1101 70 1102 60;
         played 2023 1102 80 1101 50;
         played 2024 1101 90 1102 80;
         played 2024 1102 75 1101 70;
         played 2024 1101 60 1102 50 ];
     tourney_results := [ played 2024 1101 88 1102 75 ];
     seeds :=
       fresh_seeds [ mkSeed 2023 "W01" 1101; mkSeed 2023 "W02" 1102;
                     mkSeed 2024 "W05" 1101; mkSeed 2024 "W03" 1102 ] |}.

(* ================================================================== *)
(** ** Closed forms and statements used below *)

(** The row of [team_stats] for team [k], written out. *)
Definition team_row (season_results : list GameRecord) (k : Z) : TeamStats :=
  let wins := count k (map WTeamID season_results) in
  let losses := count k (map LTeamID season_results) in
  let scored :=
    mean (map WScore (filter (fun g => WTeamID g =? k) season_results)) in
  let allowed :=
    mean (map LScore (filter (fun g => LTeamID g =? k) season_results)) in
  {| team_WTeamID := k;
     Wins := wins;
     TotalGames := of_int (wins + losses);
     WinPercentage := fdiv (of_int wins) (of_int (wins + losses));
     AvgPointsScored := scored;
     AvgPointsAllowed := allowed;
     PointDifferential := fsub scored allowed |}.

(** The right rows a left row of key [k] is paired with by a left merge. *)
Definition partners {B : Type} (right_on : B -> Z) (k : Z) (right : list B)
  : list (option B) :=
  match filter (fun b => right_on b =? k) right with
  | [] => [None]
  | matches => map Some matches
  end.

(** The rows of [team_stats] that belong to team [T]. *)
Definition rows_of_team (T : Z) (t : list TeamStats) : list TeamStats :=
  filter (fun r => team_WTeamID r =? T) t.

Definition winners (games : list GameRecord) : list Z := map WTeamID games.
Definition losers (games : list GameRecord) : list Z := map LTeamID games.

(** "One row for every team that appears as a winner or as a loser; a team
    that only lost has won = 0 and played = its number of losses." *)
Definition one_row_per_team (pd : Pandas.version) (games : list GameRecord)
  : Prop :=
  exists t,
    team_stats pd games = Ok t /\
    forall T, In T (winners games) \/ In T (losers games) ->
      exists r,
        rows_of_team T t = [r] /\
        (~ In T (winners games) ->
         Wins r = 0 /\ TotalGames r = of_int (count T (losers games))).

(** "The two characters after the first are decimal digits." *)
Definition two_digits_after_first (code : string) : Prop :=
  exists c d1 d2 rest,
    code = String c (String d1 (String d2 rest)) /\
    is_digit d1 = true /\ is_digit d2 = true.

(** "Parsing raises for every code whose two characters after the first are
    not decimal digits." *)
Definition raises_unless_two_digits : Prop :=
  forall code, ~ two_digits_after_first code -> exists e, SeedValue_of code = Raise e.






(** "Exactly one joined row per input matchup." *)
Definition row_count_preserved (pd : Pandas.version) (inp : Tables) : Prop :=
  forall rows,
    joined_rows pd inp = Ok rows ->
    List.length rows = List.length (tourney_results inp).

(** The W_ (or L_) columns of a joined row are all missing. *)
Definition W_missing (r : JoinedRow) : Prop :=
  W_WinPercentage r = NaN /\ W_AvgPointsScored r = NaN /\
  W_AvgPointsAllowed r = NaN /\ W_PointDifferential r = NaN /\
  W_SeedValue r = NaN.

Definition L_missing (r : JoinedRow) : Prop :=
  L_WinPercentage r = NaN /\ L_AvgPointsScored r = NaN /\
  L_AvgPointsAllowed r = NaN /\ L_PointDifferential r = NaN /\
  L_SeedValue r = NaN.

(** Number of rows a left merge produces for a left row of key [k]. *)
Definition slots (k : Z) (team_stats : list SeededTeamStats) : nat :=
  List.length (partners stats_key k team_stats).



(** The tables of the end-to-end scenario over a season log [season]: seeds
    "W02" for [A] and "W07" for [B], one tournament game, [A] over [B] 88
    to 75. *)
Definition scenario_tables (season : list GameRecord) (A B : Z) : Tables :=
  {| season_results := season;
     tourney_results := [ played 2024 A 88 B 75 ];
     seeds := fresh_seeds [ mkSeed 2024 "W02" A; mkSeed 2024 "W07" B ] |}.

Definition scenario_row : FeatureRow :=
  {| WinPercentage_Diff := Finite (1 # 2);
     AvgPointsScored_Diff := Finite 15;
     AvgPointsAllowed_Diff := Finite (-15);
     PointDifferential_Diff := Finite 30;
     SeedValue_Diff := Finite (-5);
     Result := 1 |}.



(** The value of a string of decimal digits. *)
Definition decimal_value (ds : list ascii) : Z :=
  fold_left (fun acc c => 10 * acc + digit_value c) ds 0.

(** The feature row whose five differences are missing. *)
Definition missing_features : FeatureRow :=
  {| WinPercentage_Diff := NaN;
     AvgPointsScored_Diff := NaN;
     AvgPointsAllowed_Diff := NaN;
     PointDifferential_Diff := NaN;
     SeedValue_Diff := NaN;
     Result := 1 |}.

(** A tournament game with the two teams exchanged. *)
Definition swap_game (g : GameRecord) : GameRecord :=
  {| Season := Season g; DayNum := DayNum g;
     WTeamID := LTeamID g; WScore := LScore g;
     LTeamID := WTeamID g; LScore := WScore g;
     WLoc := WLoc g; NumOT := NumOT g |}.

(** A feature row with its five differences negated. *)
Definition negate (f : FeatureRow) : FeatureRow :=
  {| WinPercentage_Diff := fneg (WinPercentage_Diff f);
     AvgPointsScored_Diff := fneg (AvgPointsScored_Diff f);
     AvgPointsAllowed_Diff := fneg (AvgPointsAllowed_Diff f);
     PointDifferential_Diff := fneg (PointDifferential_Diff f);
     SeedValue_Diff := fneg (SeedValue_Diff f);
     Result := Result f |}.

(** Number of seed entries of team [k], counted as 1 when there is none. *)
Definition seed_slots (k : Z) (seed_values : list (Z * Z)) : nat :=
  List.length (partners fst k seed_values).

(** Whether line 77 finds the column [WTeamID] in [total_games]. *)
Definition table_is_produced (pd : Pandas.version) (games : list GameRecord)
  : bool :=
  match pd with
  | pandas_3 => true
  | pandas_2 =>
      same_labels (group_keys (winners games)) (group_keys (losers games))
  end.

(** The characters of the ASCII range.  Beyond it Python reads some
    characters as digits or as white space. *)
Definition is_ascii (c : ascii) : bool := (nat_of_ascii c <? 128)%nat.

(** The slices of two characters, not both digits, that [int] still reads:
    a sign or a white space before a digit, a white space after a digit. *)
Definition signed_or_padded (d1 d2 : ascii) : Prop :=
  (is_digit d2 = true /\
   (d1 = "+"%char \/ d1 = "-"%char \/ is_space d1 = true)) \/
  (is_digit d1 = true /\ is_space d2 = true).

(** "Running cells 2 to 5 twice gives the same feature table, no state being
    carried from the first run to the second." *)
Definition second_run_gives_same_table (pd : Pandas.version) (ns : Namespace)
  : Prop :=
  forall ns1,
    notebook pd ns = Ok ns1 ->
    exists ns2,
      notebook pd ns1 = Ok ns2 /\ var_model_data ns2 = var_model_data ns1.

(** Strictly increasing lists of keys. *)
Inductive increasing : list Z -> Prop :=
| inc_nil : increasing []
| inc_cons x l : (forall y, In y l -> x < y) -> increasing l -> increasing (x :: l).

(* ================================================================== *)
(** * Properties *)

(** ** Group keys *)

Section GroupKeys.

Lemma insert_key_In (k x : Z) (l : list Z) :
  In x (insert_key k l) <-> x = k \/ In x l.
Proof.
  induction l as [|y r IH]; simpl.
  - intuition.
  - destruct (k <? y) eqn:Hlt; [simpl; intuition|].
    destruct (k =? y) eqn:Heq.
    + apply Z.eqb_eq in Heq; subst; simpl; intuition.
    + simpl; rewrite IH; intuition.
Qed.

Lemma group_keys_In (x : Z) (column : list Z) :
  In x (group_keys column) <-> In x column.
Proof.
  unfold group_keys; induction column as [|y r IH]; simpl; [tauto|].
  rewrite insert_key_In, IH; intuition.
Qed.

Lemma insert_key_increasing (k : Z) (l : list Z) :
  increasing l -> increasing (insert_key k l).
Proof.
  induction 1 as [|x l Hx Hl IH]; simpl.
  - constructor; [intros y []|constructor].
  - destruct (k <? x) eqn:Hlt.
    + apply Z.ltb_lt in Hlt; constructor; [|constructor; assumption].
      intros y [<-|Hy]; [assumption|]; specialize (Hx y Hy); lia.
    + destruct (k =? x) eqn:Heq; [constructor; assumption|].
      apply Z.ltb_ge in Hlt; apply Z.eqb_neq in Heq.
      constructor; [|assumption].
      intros y Hy; apply insert_key_In in Hy as [->|Hy]; [lia|auto].
Qed.

Lemma group_keys_increasing (column : list Z) : increasing (group_keys column).
Proof.
  unfold group_keys; induction column; simpl;
    [constructor|apply insert_key_increasing; assumption].
Qed.

Lemma increasing_NoDup (l : list Z) : increasing l -> NoDup l.
Proof.
  induction 1 as [|x l Hx Hl IH]; constructor; [|assumption].
  intro Hin; specialize (Hx x Hin); lia.
Qed.

Lemma group_keys_NoDup (column : list Z) : NoDup (group_keys column).
Proof. apply increasing_NoDup, group_keys_increasing. Qed.

Lemma count_pos (k : Z) (column : list Z) : In k column -> 1 <= count k column.
Proof.
  unfold count; induction column as [|y r IH]; simpl; [tauto|].
  intros [->|Hin].
  - rewrite Z.eqb_refl; simpl; lia.
  - destruct (k =? y); simpl; [lia|auto].
Qed.

Lemma count_nonneg (k : Z) (column : list Z) : 0 <= count k column.
Proof. unfold count; lia. Qed.

Lemma count_zero (k : Z) (column : list Z) : ~ In k column -> count k column = 0.
Proof.
  unfold count; induction column as [|y r IH]; simpl; [reflexivity|].
  intros Hn; destruct (k =? y) eqn:E.
  - apply Z.eqb_eq in E; subst; tauto.
  - apply IH; tauto.
Qed.

End GroupKeys.

(** ** Left merges *)

Section MergeLeft.

Context {A B C : Type} (left_on : A -> Z) (right_on : B -> Z)
        (row : A -> option B -> C).

Lemma merge_left_partners (l : list A) (r : list B) :
  merge_left left_on right_on row l r =
  flat_map (fun a => map (row a) (partners right_on (left_on a) r)) l.
Proof.
  unfold merge_left, partners; apply flat_map_ext; intro a.
  destruct (filter _ r); [reflexivity|now rewrite map_map].
Qed.

Lemma partners_nonempty (k : Z) (r : list B) :
  (1 <= List.length (partners right_on k r))%nat.
Proof.
  unfold partners; destruct (filter _ r); simpl; lia.
Qed.

Lemma filter_absent (k : Z) (r : list B) :
  ~ In k (map right_on r) -> filter (fun b => right_on b =? k) r = [].
Proof.
  induction r as [|b r IH]; simpl; [reflexivity|]; intro Hn.
  destruct (right_on b =? k) eqn:E.
  - apply Z.eqb_eq in E; tauto.
  - apply IH; tauto.
Qed.

Lemma partners_unique (k : Z) (r : list B) :
  NoDup (map right_on r) ->
  partners right_on k r = [find (fun b => right_on b =? k) r].
Proof.
  unfold partners; induction r as [|b r IH]; simpl; [reflexivity|].
  intro Hnd; inversion Hnd as [|? ? Hb Hr]; subst.
  destruct (right_on b =? k) eqn:E.
  - apply Z.eqb_eq in E; subst k; now rewrite filter_absent.
  - auto.
Qed.

Lemma merge_left_unique (l : list A) (r : list B) :
  NoDup (map right_on r) ->
  merge_left left_on right_on row l r =
  map (fun a => row a (find (fun b => right_on b =? left_on a) r)) l.
Proof.
  intro Hnd; rewrite merge_left_partners.
  induction l as [|a l IH]; simpl; [reflexivity|].
  now rewrite partners_unique, IH.
Qed.

Lemma merge_left_length (l : list A) (r : list B) :
  List.length (merge_left left_on right_on row l r) =
  fold_right
    (fun a n => (List.length (partners right_on (left_on a) r) + n)%nat) 0%nat l.
Proof.
  rewrite merge_left_partners; induction l as [|a l IH]; simpl; [reflexivity|].
  now rewrite length_app, length_map, IH.
Qed.

End MergeLeft.

Lemma find_entry {V : Type} (f : Z -> V) (k : Z) (keys : list Z) :
  In k keys ->
  find (fun e => fst e =? k) (map (fun x => (x, f x)) keys) = Some (k, f k).
Proof.
  induction keys as [|y r IH]; simpl; [tauto|].
  destruct (y =? k) eqn:E.
  - apply Z.eqb_eq in E; now subst.
  - intros [->|Hin]; [rewrite Z.eqb_refl in E; discriminate|auto].
Qed.

Lemma map_fst_entries {V : Type} (f : Z -> V) (keys : list Z) :
  map fst (map (fun x => (x, f x)) keys) = keys.
Proof. rewrite map_map; simpl; apply map_id. Qed.

Lemma combine_entries (f g : Z -> Z) (keys : list Z) :
  map (fun p : (Z * Z) * (Z * Z) => (fst (fst p), snd (fst p) + snd (snd p)))
      (combine (map (fun k => (k, f k)) keys) (map (fun k => (k, g k)) keys)) =
  map (fun k => (k, f k + g k)) keys.
Proof. induction keys; simpl; [reflexivity|now f_equal]. Qed.

(** ** Cell 2 in closed form *)

Lemma same_labels_true (a b : list Z) : same_labels a b = true <-> a = b.
Proof. unfold same_labels; destruct (list_eq_dec Z.eq_dec a b); intuition discriminate. Qed.

#[local] Arguments fdiv : simpl never.
#[local] Arguments fsub : simpl never.
#[local] Arguments of_int : simpl never.
#[local] Arguments mean : simpl never.

Lemma groupby_mean_keys {A : Type} (key value : A -> Z) (df : list A) :
  map fst (groupby_mean key value df) = group_keys (map key df).
Proof. unfold groupby_mean; apply map_fst_entries. Qed.

Lemma increasing_ext (l l' : list Z) :
  increasing l -> increasing l' -> (forall x, In x l <-> In x l') -> l = l'.
Proof.
  intro Hl; revert l'; induction Hl as [|x l Hx Hl IH]; intros l' Hl' Hext.
  - destruct l' as [|y l']; [reflexivity|].
    exfalso; apply (proj2 (Hext y)); now left.
  - destruct Hl' as [|y l' Hy Hl'].
    + exfalso; apply (proj1 (Hext x)); now left.
    + assert (x = y) as <-.
      { destruct (proj1 (Hext x) (or_introl eq_refl)) as [->|Hin]; [reflexivity|].
        destruct (proj2 (Hext y) (or_introl eq_refl)) as [->|Hin']; [reflexivity|].
        specialize (Hx _ Hin'); specialize (Hy _ Hin); lia. }
      f_equal; apply IH; [assumption|].
      intro z; split; intro Hz.
      * destruct (proj1 (Hext z) (or_intror Hz)) as [->|]; [|assumption].
        specialize (Hx _ Hz); lia.
      * destruct (proj2 (Hext z) (or_intror Hz)) as [->|]; [|assumption].
        specialize (Hy _ Hz); lia.
Qed.

Lemma group_keys_ext (a b : list Z) :
  (forall x, In x a <-> In x b) -> group_keys a = group_keys b.
Proof.
  intro H; apply increasing_ext; try apply group_keys_increasing.
  intro x; rewrite !group_keys_In; apply H.
Qed.

Lemma find_entry_none {V : Type} (f : Z -> V) (k : Z) (keys : list Z) :
  ~ In k keys ->
  find (fun e => fst e =? k) (map (fun x => (x, f x)) keys) = None.
Proof.
  induction keys as [|y r IH]; simpl; [reflexivity|]; intro Hn.
  destruct (y =? k) eqn:E.
  - apply Z.eqb_eq in E; subst; tauto.
  - apply IH; tauto.
Qed.

Lemma value_or_0_size (col_name : string) (k : Z) (column : list Z) :
  value_or_0 k (groupby_size col_name column) = count k column.
Proof.
  unfold value_or_0, groupby_size; cbn [entries].
  destruct (in_dec Z.eq_dec k (group_keys column)) as [Hin|Hout].
  - now rewrite find_entry.
  - rewrite find_entry_none by assumption.
    symmetry; apply count_zero; now rewrite <- group_keys_In.
Qed.

Lemma groupby_mean_find {A : Type} (key value : A -> Z) (df : list A) (k : Z) :
  cell snd (find (fun e => fst e =? k) (groupby_mean key value df)) =
  mean (map value (filter (fun r => key r =? k) df)).
Proof.
  unfold groupby_mean.
  destruct (in_dec Z.eq_dec k (group_keys (map key df))) as [Hin|Hout].
  - now rewrite find_entry.
  - rewrite find_entry_none by assumption.
    rewrite filter_absent by now rewrite <- group_keys_In.
    reflexivity.
Qed.

(** The merges of cell 2 once [total_games] is known to list every winning
    team once, with its wins plus its losses. *)
Lemma team_stats_rows (g : list GameRecord) (totals : list (Z * Z)) :
  NoDup (map fst totals) ->
  (forall k, In k (group_keys (winners g)) ->
     find (fun e => fst e =? k) totals =
     Some (k, count k (winners g) + count k (losers g))) ->
  map (fun '(id, wins, total, pct, scored, allowed) =>
         {| team_WTeamID := id;
            Wins := wins;
            TotalGames := total;
            WinPercentage := pct;
            AvgPointsScored := scored;
            AvgPointsAllowed := allowed;
            PointDifferential := fsub scored allowed |})
      (merge_left (fun '(id, _, _, _, _) => id) fst
         (fun '(id, wins, total, pct, scored) a =>
            (id, wins, total, pct, scored, cell snd a))
         (merge_left (fun '(id, _, _, _) => id) fst
            (fun '(id, wins, total, pct) s => (id, wins, total, pct, cell snd s))
            (map (fun '(id, wins, total) =>
                    (id, wins, total, fdiv (of_int wins) total))
                 (merge_left fst fst
                    (fun w t => (fst w, snd w, cell (fun e => of_int (snd e)) t))
                    (map (fun k => (k, count k (winners g)))
                         (group_keys (winners g)))
                    totals))
            (avg_points_scored g))
         (avg_points_allowed g)) =
  map (team_row g) (group_keys (winners g)).
Proof.
  intros Hnd Hfind.
  rewrite (merge_left_unique _ _ _ _ (avg_points_allowed g))
    by (unfold avg_points_allowed; rewrite groupby_mean_keys; apply group_keys_NoDup).
  rewrite (merge_left_unique _ _ _ _ (avg_points_scored g))
    by (unfold avg_points_scored; rewrite groupby_mean_keys; apply group_keys_NoDup).
  rewrite merge_left_unique by assumption.
  rewrite !map_map; apply map_ext_in; intros k Hk; simpl.
  rewrite (Hfind k Hk); simpl.
  unfold avg_points_scored, avg_points_allowed.
  rewrite !groupby_mean_find; reflexivity.
Qed.

Lemma labels_groupby_size (col_name : string) (column : list Z) :
  labels (groupby_size col_name column) = group_keys column.
Proof. unfold labels, groupby_size; cbn [entries]; apply map_fst_entries. Qed.

Lemma team_stats_closed_form (pd : Pandas.version) (g : list GameRecord) :
  team_stats pd g =
  if table_is_produced pd g
  then Ok (map (team_row g) (group_keys (winners g)))
  else Raise (KeyError "WTeamID").
Proof.
  unfold team_stats, win_counts, total_games, reset_index, add_fill_0,
    table_is_produced.
  rewrite !labels_groupby_size; fold (winners g) (losers g).
  destruct (same_labels _ _) eqn:Hsame; cbn [groupby_size entries index_name].
  - apply same_labels_true in Hsame.
    assert ((match pd with pandas_2 => true | pandas_3 => true end) = true) as ->
      by now destruct pd.
    cbn [on_key key_column rows index_name String.eqb Ascii.eqb Bool.eqb Py.bind].
    f_equal; rewrite <- Hsame at 1; rewrite combine_entries.
    apply team_stats_rows.
    + rewrite map_fst_entries; apply group_keys_NoDup.
    + intros k Hk; now rewrite find_entry.
  - destruct pd; [reflexivity|].
    cbn [on_key key_column rows index_name joined_index_name String.eqb
         Ascii.eqb Bool.eqb Py.bind].
    f_equal; apply team_stats_rows.
    + rewrite map_fst_entries; apply group_keys_NoDup.
    + intros k Hk.
      rewrite find_entry, !value_or_0_size; [reflexivity|].
      apply group_keys_In, in_or_app; left; assumption.
Qed.

Lemma table_is_produced_same_teams (pd : Pandas.version) (g : list GameRecord) :
  pd = pandas_3 \/ (forall T, In T (winners g) <-> In T (losers g)) ->
  table_is_produced pd g = true.
Proof.
  intros [->|Hboth]; [reflexivity|]; destruct pd; [|reflexivity].
  apply same_labels_true; now apply group_keys_ext.
Qed.

Lemma filter_key_NoDup (T : Z) (keys : list Z) :
  NoDup keys ->
  filter (fun k => k =? T) keys = if in_dec Z.eq_dec T keys then [T] else [].
Proof.
  induction 1 as [|k keys Hk Hnd IH]; simpl; [reflexivity|].
  destruct (k =? T) eqn:E.
  - apply Z.eqb_eq in E; subst k.
    destruct (Z.eq_dec T T) as [_|]; [|congruence].
    rewrite IH; destruct (in_dec Z.eq_dec T keys); [contradiction|reflexivity].
  - apply Z.eqb_neq in E; rewrite IH.
    destruct (Z.eq_dec k T); [contradiction|].
    destruct (in_dec Z.eq_dec T keys); reflexivity.
Qed.

Lemma rows_of_team_closed_form (g : list GameRecord) (T : Z) :
  rows_of_team T (map (team_row g) (group_keys (winners g))) =
  if in_dec Z.eq_dec T (winners g) then [team_row g T] else [].
Proof.
  unfold rows_of_team.
  assert (forall l, filter (fun r => team_WTeamID r =? T) (map (team_row g) l) =
                    map (team_row g) (filter (fun k => k =? T) l)) as ->.
  { induction l as [|k l IH]; simpl; [reflexivity|].
    destruct (k =? T); simpl; now rewrite IH. }
  rewrite filter_key_NoDup by apply group_keys_NoDup.
  destruct (in_dec Z.eq_dec T (group_keys (winners g))) as [Hi|Hn];
    destruct (in_dec Z.eq_dec T (winners g)) as [Hi'|Hn']; try reflexivity.
  - apply (proj1 (group_keys_In _ _)) in Hi; contradiction.
  - apply (proj2 (group_keys_In _ _)) in Hi'; contradiction.
Qed.

Lemma team_stats_Ok_inv (pd : Pandas.version) (g : list GameRecord)
    (t : list TeamStats) :
  team_stats pd g = Ok t -> t = map (team_row g) (group_keys (winners g)).
Proof.
  rewrite team_stats_closed_form.
  destruct (table_is_produced pd g); [congruence|discriminate].
Qed.

Lemma team_stats_pandas_2_inv (g : list GameRecord) (t : list TeamStats) :
  team_stats pandas_2 g = Ok t ->
  group_keys (winners g) = group_keys (losers g).
Proof.
  rewrite team_stats_closed_form; unfold table_is_produced.
  destruct (same_labels _ _) eqn:E; [|discriminate].
  now apply same_labels_true in E.
Qed.

(** Up to pandas 2.2, a team that only won, or only lost, makes the index
    of the sum of the two size Series lose its name: the merge of line 77
    finds no column [WTeamID] in [total_games]. *)
Lemma team_stats_KeyError (g : list GameRecord) (T : Z) :
  (In T (winners g) /\ ~ In T (losers g)) \/
  (In T (losers g) /\ ~ In T (winners g)) ->
  team_stats pandas_2 g = Raise (KeyError "WTeamID").
Proof.
  intro H; rewrite team_stats_closed_form; unfold table_is_produced.
  destruct (same_labels _ _) eqn:E; [|reflexivity].
  apply same_labels_true in E; exfalso.
  assert (In T (group_keys (winners g)) <-> In T (group_keys (losers g)))
    as Hiff by now rewrite E.
  rewrite !group_keys_In in Hiff; tauto.
Qed.

(** ** Team rows (C1, C2, C8) *)

(** C1, as stated, fails: a single game won by team 1101 over team 1102.
    With pandas 3 the table holds the row of the winner only, the team that
    only lost has none; up to pandas 2.2 no table is produced. *)
Lemma C1_loser_only_team_gets_no_row :
  ~ one_row_per_team pandas_3 [played 2024 1101 70 1102 60] /\
  ~ one_row_per_team pandas_2 [played 2024 1101 70 1102 60].
Proof.
  split.
  - intros [t [Ht Hrows]].
    apply team_stats_Ok_inv in Ht; subst t.
    destruct (Hrows 1102) as [r [Hr _]]; [right; simpl; tauto|].
    vm_compute in Hr; discriminate Hr.
  - intros [t [Ht _]]; vm_compute in Ht; discriminate Ht.
Qed.

(** C1 (amended): whenever [team_stats] is produced it holds exactly one row
    for every team that won at least one game, with [Wins] its number of
    wins (at least 1) and [TotalGames] its number of wins plus its number
    of losses, and no row for any other team: a team that only lost gets no
    row.  The table is produced at least when every team of the game log has
    both won and lost a game, and always with pandas 3. *)
Theorem team_stats_one_row_per_winner
    (pd : Pandas.version) (games : list GameRecord) :
  (pd = pandas_3 \/ (forall T, In T (winners games) <-> In T (losers games)) ->
   exists t, team_stats pd games = Ok t) /\
  (forall t, team_stats pd games = Ok t ->
   forall T,
     (In T (winners games) ->
      exists r,
        rows_of_team T t = [r] /\
        team_WTeamID r = T /\
        Wins r = count T (winners games) /\
        1 <= Wins r /\
        TotalGames r = of_int (count T (winners games) + count T (losers games))) /\
     (~ In T (winners games) -> rows_of_team T t = [])).
Proof.
  split.
  - intro Hprod; rewrite team_stats_closed_form.
    rewrite table_is_produced_same_teams by assumption.
    eexists; reflexivity.
  - intros t Ht T; apply team_stats_Ok_inv in Ht as ->.
    rewrite rows_of_team_closed_form.
    destruct (in_dec Z.eq_dec T (winners games)) as [Hin|Hout]; split;
      intro H; try contradiction; try reflexivity.
    exists (team_row games T); repeat split.
    now apply count_pos.
Qed.

Lemma team_stats_one_row_per_winner_witness :
  exists t r,
    team_stats pandas_3 [played 2024 1101 70 1102 60] = Ok t /\
    rows_of_team 1101 t = [r] /\ Wins r = 1 /\ TotalGames r = of_int 1 /\
    rows_of_team 1102 t = [].
Proof.
  destruct (team_stats_one_row_per_winner pandas_3 [played 2024 1101 70 1102 60])
    as [Hreturns Hrows].
  destruct Hreturns as [t Ht]; [now left|].
  destruct (Hrows t Ht 1101) as [Hwinner _].
  destruct (Hrows t Ht 1102) as [_ Hloser].
  destruct Hwinner as [r [Hr [_ [Hw [_ Hg]]]]]; [simpl; tauto|].
  exists t, r; split; [assumption|split; [assumption|split; [exact Hw|split]]].
  - exact Hg.
  - apply Hloser; simpl; intros [H|[]]; discriminate H.
Defined.

(** Win percentage of a team with [w] wins out of [n] games. *)
Lemma fdiv_counts (w n : Z) :
  0 <= w <= n -> 1 <= n ->
  exists q, fdiv (of_int w) (of_int n) = Finite q /\ (0 <= q <= 1)%Q.
Proof.
  intros Hw Hn; unfold fdiv, of_int, fin.
  destruct (Qeq_bool (Qred (inject_Z n)) 0) eqn:E.
  - apply Qeq_bool_eq in E; rewrite Qred_correct in E.
    unfold Qeq in E; simpl in E; lia.
  - eexists; split; [reflexivity|].
    rewrite !Qred_correct.
    assert (0 < inject_Z n)%Q as Hpos by (unfold Qlt; simpl; lia).
    split.
    + apply Qle_shift_div_l; [assumption|].
      rewrite Qmult_0_l; unfold Qle; simpl; lia.
    + apply Qle_shift_div_r; [assumption|].
      rewrite Qmult_1_l; unfold Qle; simpl; lia.
Qed.

(** C8: every row of [team_stats] has at least one game played (the rows come
    from the teams that won a game), wins between 1 and games played, and a
    win percentage that is a number between 0 and 1; so no produced row has
    games played = 0, and none holds NaN or an infinity as win percentage. *)
Theorem WinPercentage_in_unit_interval
    (pd : Pandas.version) (games : list GameRecord) (t : list TeamStats)
    (r : TeamStats) :
  team_stats pd games = Ok t -> In r t ->
  exists played pct,
    TotalGames r = of_int played /\
    1 <= Wins r <= played /\
    WinPercentage r = Finite pct /\
    (0 <= pct <= 1)%Q.
Proof.
  intros Ht Hr; apply team_stats_Ok_inv in Ht as ->.
  apply in_map_iff in Hr as [k [<- Hk]].
  apply (proj1 (group_keys_In _ _)) in Hk.
  pose proof (count_pos k _ Hk) as Hw.
  pose proof (count_nonneg k (losers games)) as Hl.
  destruct (fdiv_counts (count k (winners games))
              (count k (winners games) + count k (losers games)))
    as [q [Hq Hrange]]; [lia|lia|].
  exists (count k (winners games) + count k (losers games)), q.
  repeat split; try (simpl; fold (winners games) (losers games); lia);
    try apply Hrange.
  exact Hq.
Qed.

Lemma WinPercentage_in_unit_interval_witness :
  exists played pct,
    TotalGames (team_row scenario_season 1102) = of_int played /\
    1 <= Wins (team_row scenario_season 1102) <= played /\
    WinPercentage (team_row scenario_season 1102) = Finite pct /\
    (0 <= pct <= 1)%Q.
Proof.
  apply (WinPercentage_in_unit_interval pandas_2 scenario_season
           (map (team_row scenario_season) [1101; 1102; 1103])).
  - vm_compute; reflexivity.
  - simpl; tauto.
Defined.

(** The division of line 78 itself has no guard: a zero divisor gives NaN or
    an infinity, not an exception. *)
Lemma fdiv_by_zero_is_silent :
  fdiv (of_int 0) (of_int 0) = NaN /\ fdiv (of_int 3) (of_int 0) = PosInf.
Proof. split; reflexivity. Qed.

(** C2 (the code departs from the claim): team 1102 lost one game, 60 to 70.
    Its [AvgPointsAllowed] is 60, the mean of its own score in the games it
    lost (column [LScore]); the mean of the winning opponent's score over
    those games is 70. *)
Theorem AvgPointsAllowed_is_own_losing_score (pd : Pandas.version) :
  let games := [played 2024 1101 70 1102 60; played 2024 1102 80 1101 50] in
  exists rA rB,
    team_stats pd games = Ok [rA; rB] /\
    team_WTeamID rB = 1102 /\
    AvgPointsAllowed rB = of_int 60 /\
    mean (map LScore (filter (fun g => LTeamID g =? 1102) games)) = of_int 60 /\
    mean (map WScore (filter (fun g => LTeamID g =? 1102) games)) = of_int 70.
Proof.
  destruct pd; simpl; do 2 eexists; repeat split.
Qed.

(** ** Seed codes (C5, C10) *)

Lemma digit_facts (c : ascii) :
  is_digit c = true ->
  is_space c = false /\ Ascii.eqb c "+" = false /\ Ascii.eqb c "-" = false.
Proof.
  destruct c as [[] [] [] [] [] [] [] []]; vm_compute; intro H;
    try discriminate H; repeat split.
Qed.

#[local] Arguments is_space : simpl never.
#[local] Arguments is_digit : simpl never.
#[local] Arguments is_underscore : simpl never.
#[local] Arguments digit_value : simpl never.
#[local] Arguments Ascii.eqb : simpl never.

Lemma slice_1_3 (c d1 d2 : ascii) (rest : string) :
  Py.slice 1 3 (String c (String d1 (String d2 rest))) = String d1 (String d2 "").
Proof. unfold Py.slice; simpl; now destruct rest. Qed.

Lemma int_two_digits (d1 d2 : ascii) :
  is_digit d1 = true -> is_digit d2 = true ->
  Py.int (String d1 (String d2 "")) = Ok (10 * digit_value d1 + digit_value d2).
Proof.
  intros H1 H2; destruct (digit_facts d1 H1) as (Hs & Hp & Hm).
  unfold Py.int; simpl; rewrite Hs, Hp, Hm; simpl; rewrite H1; simpl.
  now rewrite H2.
Qed.

Lemma space_facts (c : ascii) :
  is_space c = true ->
  is_digit c = false /\ Ascii.eqb c "+" = false /\ Ascii.eqb c "-" = false /\
  is_underscore c = false.
Proof.
  destruct c as [[] [] [] [] [] [] [] []]; vm_compute; intro H;
    try discriminate H; repeat split.
Qed.

Lemma int_padded_digit (d1 d2 : ascii) :
  is_space d1 = true -> is_digit d2 = true ->
  Py.int (String d1 (String d2 "")) = Ok (digit_value d2).
Proof.
  intros H1 H2; destruct (digit_facts d2 H2) as (Hs & Hp & Hm).
  unfold Py.int; simpl; rewrite H1, Hs, Hp, Hm; simpl; now rewrite H2.
Qed.

Lemma int_signed_digit (d : ascii) :
  is_digit d = true ->
  Py.int (String "+" (String d "")) = Ok (digit_value d) /\
  Py.int (String "-" (String d "")) = Ok (- digit_value d).
Proof.
  intro H; unfold Py.int; simpl.
  change (is_space "+") with false; change (is_space "-") with false.
  change (Ascii.eqb "+" "+") with true; change (Ascii.eqb "-" "+") with false.
  change (Ascii.eqb "-" "-") with true; simpl.
  now rewrite H.
Qed.

Lemma int_digit_padded (d1 d2 : ascii) :
  is_digit d1 = true -> is_space d2 = true ->
  Py.int (String d1 (String d2 "")) = Ok (digit_value d1).
Proof.
  intros H1 H2; destruct (digit_facts d1 H1) as (Hs & Hp & Hm).
  destruct (space_facts d2 H2) as (Hd & _ & _ & Hu).
  unfold Py.int; simpl; rewrite Hs, Hp, Hm; simpl; rewrite H1; simpl.
  rewrite Hd, Hu; simpl; now rewrite H2.
Qed.

Lemma int_one_character (d : ascii) :
  is_digit d = false ->
  Py.int (String d "") = Raise (ValueError (String d "")).
Proof.
  intro Hd; unfold Py.int; simpl.
  destruct (is_space d); simpl; [reflexivity|].
  destruct (Ascii.eqb d "+"); simpl; [reflexivity|].
  destruct (Ascii.eqb d "-"); simpl; [reflexivity|].
  now rewrite Hd.
Qed.

Lemma int_two_characters (d1 d2 : ascii) :
  ~ (is_digit d1 = true /\ is_digit d2 = true) ->
  ~ signed_or_padded d1 d2 ->
  Py.int (String d1 (String d2 "")) = Raise (ValueError (String d1 (String d2 ""))).
Proof.
  unfold signed_or_padded; intros Hboth Hform.
  unfold Py.int; simpl.
  destruct (is_space d1) eqn:S1; simpl.
  - destruct (is_space d2) eqn:S2; simpl; [reflexivity|].
    destruct (is_digit d2) eqn:D2; [exfalso; tauto|].
    destruct (Ascii.eqb d2 "+"); simpl; [reflexivity|].
    destruct (Ascii.eqb d2 "-"); simpl; reflexivity.
  - destruct (Ascii.eqb d1 "+") eqn:P1; simpl.
    { apply Ascii.eqb_eq in P1.
      destruct (is_digit d2) eqn:D2; [exfalso; tauto|reflexivity]. }
    destruct (Ascii.eqb d1 "-") eqn:M1; simpl.
    { apply Ascii.eqb_eq in M1.
      destruct (is_digit d2) eqn:D2; [exfalso; tauto|reflexivity]. }
    destruct (is_digit d1) eqn:D1; simpl; [|reflexivity].
    destruct (is_digit d2) eqn:D2; [exfalso; tauto|].
    destruct (is_underscore d2); simpl; [reflexivity|].
    destruct (is_space d2) eqn:S2; [exfalso; tauto|reflexivity].
Qed.

(** C5, as stated, fails: the two characters after the region letter of
    "W+7" are not two digits, and the code parses to 7. *)
Lemma C5_sign_is_accepted : ~ raises_unless_two_digits.
Proof.
  intro H; destruct (H "W+7"%string) as [e He].
  - intros (c & d1 & d2 & rest & Hcode & Hd1 & _).
    injection Hcode as _ <- _ _; discriminate Hd1.
  - discriminate He.
Qed.

(** C5 (amended): the seed value is Python's [int] of the slice [x[1:3]].  For
    a code whose second and third characters are decimal digits it is the
    value of these two digits.  A code of ASCII characters whose second and
    third characters are not two decimal digits raises (a ValueError naming
    the slice), but for three forms that [int] reads as one digit: a sign
    before a digit, a white space before a digit, a white space after a
    digit.  A code of two characters whose second is no digit raises, and so
    do a code of one character and the empty code. *)
Theorem SeedValue_of_two_digits (c d1 d2 : ascii) (rest : string) :
  (is_digit d1 = true -> is_digit d2 = true ->
   SeedValue_of (String c (String d1 (String d2 rest))) =
   Ok (10 * digit_value d1 + digit_value d2)) /\
  (is_ascii d1 = true -> is_ascii d2 = true ->
   ~ (is_digit d1 = true /\ is_digit d2 = true) ->
   ~ signed_or_padded d1 d2 ->
   SeedValue_of (String c (String d1 (String d2 rest))) =
   Raise (ValueError (String d1 (String d2 "")))) /\
  (is_digit d2 = true -> d1 = "+"%char \/ is_space d1 = true ->
   SeedValue_of (String c (String d1 (String d2 rest))) = Ok (digit_value d2)) /\
  (is_digit d2 = true -> d1 = "-"%char ->
   SeedValue_of (String c (String d1 (String d2 rest))) = Ok (- digit_value d2)) /\
  (is_digit d1 = true -> is_space d2 = true ->
   SeedValue_of (String c (String d1 (String d2 rest))) = Ok (digit_value d1)) /\
  (is_ascii d2 = true -> is_digit d2 = false ->
   SeedValue_of (String c (String d2 "")) = Raise (ValueError (String d2 ""))) /\
  SeedValue_of (String c "") = Raise (ValueError "") /\
  SeedValue_of "" = Raise (ValueError "").
Proof.
  unfold SeedValue_of; rewrite slice_1_3.
  split; [apply int_two_digits|].
  split; [intros _ _; apply int_two_characters|].
  split; [intros H2 [->|H1];
          [apply (int_signed_digit d2 H2)|now apply int_padded_digit]|].
  split; [intros H2 ->; apply (int_signed_digit d2 H2)|].
  split; [apply int_digit_padded|].
  split; [intros _; apply int_one_character|].
  split; reflexivity.
Qed.

Lemma SeedValue_of_two_digits_witness :
  SeedValue_of "W01" = Ok 1 /\ SeedValue_of "Z16" = Ok 16 /\
  SeedValue_of "X10" = Ok 10 /\
  SeedValue_of "W0A" = Raise (ValueError "0A") /\
  SeedValue_of "W0." = Raise (ValueError "0.") /\
  SeedValue_of "W#1" = Raise (ValueError "#1") /\
  SeedValue_of "W_1" = Raise (ValueError "_1") /\
  SeedValue_of "W$$" = Raise (ValueError "$$") /\
  SeedValue_of "W+7" = Ok 7 /\ SeedValue_of "W-7" = Ok (-7) /\
  SeedValue_of "W7 " = Ok 7 /\
  SeedValue_of "WA" = Raise (ValueError "A").
Proof.
  assert (forall d1 d2 : ascii,
            is_digit d1 && is_digit d2 = false ->
            ~ (is_digit d1 = true /\ is_digit d2 = true)) as Hboth.
  { intros d1 d2 H [H1 H2]; rewrite H1, H2 in H; discriminate H. }
  assert (forall d1 d2 : ascii,
            is_digit d2 && (Ascii.eqb d1 "+" || Ascii.eqb d1 "-" || is_space d1)
            || is_digit d1 && is_space d2 = false ->
            ~ signed_or_padded d1 d2) as Hform.
  { intros d1 d2 H; apply Bool.orb_false_iff in H as [Ha Hb].
    intros [[H2 [->|[->|H1]]]|[H1 H2]].
    - rewrite H2 in Ha; vm_compute in Ha; discriminate Ha.
    - rewrite H2 in Ha; vm_compute in Ha; discriminate Ha.
    - rewrite H2, H1, Bool.orb_true_r in Ha; discriminate Ha.
    - rewrite H1, H2 in Hb; discriminate Hb. }
  destruct (SeedValue_of_two_digits "W" "0" "1" "") as (H & _).
  split; [apply H; reflexivity|clear H].
  destruct (SeedValue_of_two_digits "Z" "1" "6" "") as (H & _).
  split; [apply H; reflexivity|clear H].
  destruct (SeedValue_of_two_digits "X" "1" "0" "") as (H & _).
  split; [apply H; reflexivity|clear H].
  destruct (SeedValue_of_two_digits "W" "0" "A" "") as (_ & H & _).
  split; [apply H; [reflexivity|reflexivity|apply Hboth|apply Hform]; reflexivity|clear H].
  destruct (SeedValue_of_two_digits "W" "0" "." "") as (_ & H & _).
  split; [apply H; [reflexivity|reflexivity|apply Hboth|apply Hform]; reflexivity|clear H].
  destruct (SeedValue_of_two_digits "W" "#" "1" "") as (_ & H & _).
  split; [apply H; [reflexivity|reflexivity|apply Hboth|apply Hform]; reflexivity|clear H].
  destruct (SeedValue_of_two_digits "W" "_" "1" "") as (_ & H & _).
  split; [apply H; [reflexivity|reflexivity|apply Hboth|apply Hform]; reflexivity|clear H].
  destruct (SeedValue_of_two_digits "W" "$" "$" "") as (_ & H & _).
  split; [apply H; [reflexivity|reflexivity|apply Hboth|apply Hform]; reflexivity|clear H].
  destruct (SeedValue_of_two_digits "W" "+" "7" "") as (_ & _ & H & _).
  split; [apply H; [reflexivity|left; reflexivity]|clear H].
  destruct (SeedValue_of_two_digits "W" "-" "7" "") as (_ & _ & _ & H & _).
  split; [apply H; reflexivity|clear H].
  destruct (SeedValue_of_two_digits "W" "7" " " "") as (_ & _ & _ & _ & H & _).
  split; [apply H; reflexivity|clear H].
  destruct (SeedValue_of_two_digits "W" "x" "A" "") as (_ & _ & _ & _ & _ & H & _).
  apply H; reflexivity.
Defined.

(** Other slices that [int] accepts, and a play-in seed. *)
Lemma SeedValue_of_other_literals :
  SeedValue_of "W-7" = Ok (-7) /\ SeedValue_of "W 7" = Ok 7 /\
  SeedValue_of "W7 " = Ok 7 /\ SeedValue_of "W16a" = Ok 16 /\
  SeedValue_of "W" = Raise (ValueError "").
Proof. repeat split. Qed.

(** C10: the length of the code is not checked.  A code of two characters
    whose second character is a decimal digit parses to the value of that
    digit. *)
Theorem SeedValue_of_short_code (c d : ascii) :
  is_digit d = true -> SeedValue_of (String c (String d "")) = Ok (digit_value d).
Proof.
  intro Hd; destruct (digit_facts d Hd) as (Hs & Hp & Hm).
  unfold SeedValue_of, Py.slice, Py.int; simpl.
  rewrite Hs, Hp, Hm; simpl; now rewrite Hd.
Qed.

Lemma SeedValue_of_short_code_witness : SeedValue_of "W1" = Ok 1.
Proof. apply (SeedValue_of_short_code "W" "1"); reflexivity. Defined.

(** ** Feature differences (C6) *)

Lemma fsub_swap (a b : float64) : fsub b a = fneg (fsub a b).
Proof.
  destruct a as [p| | |], b as [q| | |]; try reflexivity.
  unfold fsub, fneg, fin; f_equal; apply Qred_complete.
  rewrite Qred_correct; ring.
Qed.

(** C6: with the two sides of a joined row exchanged, each of the five
    differences is the negation of the original one.  This holds for every
    joined row, in particular for those whose paired attributes are all
    present. *)
Theorem differential_symmetry (r : JoinedRow) :
  WinPercentage_Diff (features (swap_sides r)) =
    fneg (WinPercentage_Diff (features r)) /\
  AvgPointsScored_Diff (features (swap_sides r)) =
    fneg (AvgPointsScored_Diff (features r)) /\
  AvgPointsAllowed_Diff (features (swap_sides r)) =
    fneg (AvgPointsAllowed_Diff (features r)) /\
  PointDifferential_Diff (features (swap_sides r)) =
    fneg (PointDifferential_Diff (features r)) /\
  SeedValue_Diff (features (swap_sides r)) =
    fneg (SeedValue_Diff (features r)).
Proof.
  unfold features, swap_sides; simpl.
  repeat split; apply fsub_swap.
Qed.

(** On numbers, [fneg] is the opposite. *)
Lemma fneg_Finite (q : Q) : exists q', fneg (Finite q) = Finite q' /\ (q' == - q)%Q.
Proof. eexists; split; [reflexivity|apply Qred_correct]. Qed.

(** ** Joining team statistics onto the tournament games (C3, C4) *)

Lemma merge_tourney_results_rows (tr : list GameRecord) (ts : list SeededTeamStats) :
  merge_tourney_results tr ts =
  flat_map
    (fun g =>
       flat_map
         (fun w => map (join_row g w) (partners stats_key (LTeamID g) ts))
         (partners stats_key (WTeamID g) ts))
    tr.
Proof.
  unfold merge_tourney_results, merge_loser, merge_winner.
  rewrite !merge_left_partners.
  induction tr as [|g tr IH]; simpl; [reflexivity|].
  rewrite flat_map_app, IH; f_equal.
  induction (partners stats_key (WTeamID g) ts) as [|w ws IHw]; simpl;
    [reflexivity|now rewrite IHw].
Qed.

Lemma length_pairs {A B C : Type} (f : A -> B -> C) (xs : list A) (ys : list B) :
  List.length (flat_map (fun x => map (f x) ys) xs) =
  (List.length xs * List.length ys)%nat.
Proof.
  induction xs as [|x xs IH]; simpl; [reflexivity|].
  now rewrite length_app, length_map, IH.
Qed.

Lemma merge_tourney_results_length (tr : list GameRecord) (ts : list SeededTeamStats) :
  List.length (merge_tourney_results tr ts) =
  fold_right (fun g n => (slots (WTeamID g) ts * slots (LTeamID g) ts + n)%nat)
             0%nat tr.
Proof.
  rewrite merge_tourney_results_rows.
  induction tr as [|g tr IH]; simpl; [reflexivity|].
  now rewrite length_app, length_pairs, IH.
Qed.

Lemma slots_pos (k : Z) (ts : list SeededTeamStats) : (1 <= slots k ts)%nat.
Proof. apply partners_nonempty. Qed.

Lemma slots_unique (k : Z) (ts : list SeededTeamStats) :
  NoDup (map stats_key ts) -> slots k ts = 1%nat.
Proof. intro H; unfold slots; now rewrite partners_unique. Qed.

Lemma partners_absent (k : Z) (ts : list SeededTeamStats) :
  ~ In k (map stats_key ts) -> partners stats_key k ts = [None].
Proof. intro H; unfold partners; now rewrite filter_absent. Qed.

Lemma in_merge_tourney_results (r : JoinedRow) (tr : list GameRecord)
    (ts : list SeededTeamStats) :
  In r (merge_tourney_results tr ts) <->
  exists g w l,
    In g tr /\ In w (partners stats_key (WTeamID g) ts) /\
    In l (partners stats_key (LTeamID g) ts) /\ r = join_row g w l.
Proof.
  rewrite merge_tourney_results_rows, in_flat_map; split.
  - intros (g & Hg & Hr); apply in_flat_map in Hr as (w & Hw & Hr).
    apply in_map_iff in Hr as (l & <- & Hl); now exists g, w, l.
  - intros (g & w & l & Hg & Hw & Hl & ->); exists g; split; [assumption|].
    apply in_flat_map; exists w; split; [assumption|].
    apply in_map_iff; now exists l.
Qed.

(** C4, as stated, fails: with seeds for two seasons, each team has two rows
    in [team_stats], and the single tournament game comes out as four rows. *)
Lemma C4_rows_multiply :
  ~ row_count_preserved pandas_2 two_seasons /\
  ~ row_count_preserved pandas_3 two_seasons.
Proof.
  split; intro H; specialize (H _ eq_refl); vm_compute in H; discriminate H.
Qed.

(** C4 (amended): the left merges of cell 4 never drop a tournament game.
    A game yields [slots W * slots L] rows, where [slots] is the number of
    [team_stats] rows with the team's ID, counted as 1 when there is none; so
    the output has at least as many rows as the input, and exactly as many
    when [team_stats] has at most one row per team ID.  Every output row
    stems from an input game, and a side without statistics has all its
    columns missing. *)
Theorem matchups_are_never_dropped
    (tr : list GameRecord) (ts : list SeededTeamStats) :
  List.length (merge_tourney_results tr ts) =
    fold_right (fun g n => (slots (WTeamID g) ts * slots (LTeamID g) ts + n)%nat)
               0%nat tr /\
  (List.length tr <= List.length (merge_tourney_results tr ts))%nat /\
  (NoDup (map stats_key ts) ->
   List.length (merge_tourney_results tr ts) = List.length tr) /\
  (forall g, In g tr ->
   exists r, In r (merge_tourney_results tr ts) /\ game r = g) /\
  (forall r, In r (merge_tourney_results tr ts) ->
   In (game r) tr /\
   (~ In (WTeamID (game r)) (map stats_key ts) -> W_missing r) /\
   (~ In (LTeamID (game r)) (map stats_key ts) -> L_missing r)).
Proof.
  split; [apply merge_tourney_results_length|].
  split; [|split; [|split]].
  - rewrite merge_tourney_results_length.
    induction tr as [|g tr IH]; simpl; [lia|].
    pose proof (slots_pos (WTeamID g) ts); pose proof (slots_pos (LTeamID g) ts).
    nia.
  - intro Hnd; rewrite merge_tourney_results_length.
    induction tr as [|g tr IH]; simpl; [reflexivity|].
    rewrite !slots_unique by assumption; simpl; now rewrite IH.
  - intros g Hg.
    destruct (partners stats_key (WTeamID g) ts) as [|w ws] eqn:Ew.
    { pose proof (partners_nonempty stats_key (WTeamID g) ts) as Hp.
      rewrite Ew in Hp; simpl in Hp; lia. }
    destruct (partners stats_key (LTeamID g) ts) as [|l ls] eqn:El.
    { pose proof (partners_nonempty stats_key (LTeamID g) ts) as Hp.
      rewrite El in Hp; simpl in Hp; lia. }
    exists (join_row g w l); split; [|reflexivity].
    apply in_merge_tourney_results; exists g, w, l.
    rewrite Ew, El; simpl; tauto.
  - intros r Hr.
    apply in_merge_tourney_results in Hr as (g & w & l & Hg & Hw & Hl & ->).
    simpl; split; [assumption|split]; intro Habs.
    + rewrite partners_absent in Hw by assumption.
      destruct Hw as [<-|[]]; repeat split.
    + rewrite partners_absent in Hl by assumption.
      destruct Hl as [<-|[]]; repeat split.
Qed.

Lemma matchups_are_never_dropped_witness :
  let ts := merge_seeds (map (team_row scenario_season) [1101; 1102; 1103])
                        [(1101, 2); (1102, 7)] in
  List.length (merge_tourney_results (played 2024 1101 88 1104 75 :: tourney_results scenario) ts) = 2%nat /\
  W_SeedValue (join_row (played 2024 1101 88 1104 75) (nth_error ts 0) None) = of_int 2 /\
  L_missing (join_row (played 2024 1101 88 1104 75) (nth_error ts 0) None).
Proof.
  intro ts.
  destruct (matchups_are_never_dropped
              (played 2024 1101 88 1104 75 :: tourney_results scenario) ts)
    as (_ & _ & Hcount & _ & Hrows).
  split; [|split].
  - apply Hcount; vm_compute.
    repeat (constructor; [simpl; intuition discriminate|]); constructor.
  - reflexivity.
  - apply (Hrows (join_row (played 2024 1101 88 1104 75) (nth_error ts 0) None)).
    + vm_compute; tauto.
    + vm_compute; intuition discriminate.
Defined.









(** ** The end-to-end scenario (C7) *)

Lemma sum_Permutation (xs ys : list Z) :
  Permutation xs ys -> fold_right Z.add 0 xs = fold_right Z.add 0 ys.
Proof. induction 1; simpl; lia. Qed.

Lemma mean_Permutation (xs ys : list Z) : Permutation xs ys -> mean xs = mean ys.
Proof.
  intro H; unfold mean.
  now rewrite (sum_Permutation _ _ H), (Permutation_length H).
Qed.

Lemma count_filter {A : Type} (key : A -> Z) (k : Z) (df : list A) :
  count k (map key df) =
  Z.of_nat (List.length (filter (fun r => key r =? k) df)).
Proof.
  unfold count; f_equal; induction df as [|a df IH]; simpl; [reflexivity|].
  rewrite (Z.eqb_sym k); destruct (key a =? k); simpl; now rewrite IH.
Qed.

Lemma count_scores {A : Type} (key value : A -> Z) (k : Z) (df : list A)
    (scores : list Z) :
  Permutation (map value (filter (fun r => key r =? k) df)) scores ->
  count k (map key df) = Z.of_nat (List.length scores).
Proof.
  intro H; rewrite count_filter, <- (Permutation_length H).
  now rewrite length_map.
Qed.

Lemma find_keyed (h : Z -> SeededTeamStats) (k : Z) (keys : list Z) :
  (forall x, stats_key (h x) = x) -> In k keys ->
  find (fun t => stats_key t =? k) (map h keys) = Some (h k).
Proof.
  intro Hh; induction keys as [|y r IH]; simpl; [tauto|].
  rewrite Hh; destruct (y =? k) eqn:E.
  - apply Z.eqb_eq in E; now subst.
  - intros [->|Hin]; [rewrite Z.eqb_refl in E; discriminate|auto].
Qed.

Lemma count_In (k : Z) (column : list Z) : 1 <= count k column -> In k column.
Proof.
  intro H; destruct (in_dec Z.eq_dec k column) as [|Hn]; [assumption|].
  rewrite count_zero in H by assumption; lia.
Qed.

Lemma merge_seeds_unique (ts : list TeamStats) (seed_values : list (Z * Z)) :
  NoDup (map fst seed_values) ->
  merge_seeds ts seed_values =
  map (fun t =>
         {| stats := t;
            SeedValue :=
              cell (fun e => of_int (snd e))
                   (find (fun e => fst e =? team_WTeamID t) seed_values) |})
      ts.
Proof. intro H; unfold merge_seeds; now rewrite merge_left_unique. Qed.

(** C7: over any season log in which A won three games scoring 70, 80 and
    90 and lost one scoring 60, B won one game scoring 65 and lost three
    scoring 70, 75 and 80, and every team has both won and lost a game (a
    condition pandas 3 does not need), the run on seeds "W02" for A, "W07"
    for B and the single tournament game A over B 88 to 75 yields exactly
    one feature row: 0.5, 15, -15, 30, -5 and Result 1. *)
Theorem end_to_end_scenario
    (pd : Pandas.version) (season : list GameRecord) (A B : Z) :
  A <> B ->
  pd = pandas_3 \/ (forall T, In T (winners season) <-> In T (losers season)) ->
  Permutation (map WScore (filter (fun g => WTeamID g =? A) season)) [70; 80; 90] ->
  Permutation (map LScore (filter (fun g => LTeamID g =? A) season)) [60] ->
  Permutation (map WScore (filter (fun g => WTeamID g =? B) season)) [65] ->
  Permutation (map LScore (filter (fun g => LTeamID g =? B) season)) [70; 75; 80] ->
  feature_table pd (scenario_tables season A B) = Ok [scenario_row].
Proof.
  intros HAB Hboth HAw HAl HBw HBl.
  pose proof (count_scores WTeamID WScore A season _ HAw) as HcAw.
  pose proof (count_scores LTeamID LScore A season _ HAl) as HcAl.
  pose proof (count_scores WTeamID WScore B season _ HBw) as HcBw.
  pose proof (count_scores LTeamID LScore B season _ HBl) as HcBl.
  assert (In A (group_keys (winners season))) as HA
    by (apply group_keys_In, count_In; unfold winners; rewrite HcAw; simpl; lia).
  assert (In B (group_keys (winners season))) as HB
    by (apply group_keys_In, count_In; unfold winners; rewrite HcBw; simpl; lia).
  unfold feature_table, joined_rows, seeded_team_stats, scenario_tables.
  cbn [season_results tourney_results seeds].
  rewrite team_stats_closed_form, table_is_produced_same_teams by assumption.
  set (sd := fresh_seeds _).
  assert (assign_SeedValue sd =
          Ok {| seed_rows := seed_rows sd; SeedValue_column := Some [2; 7] |})
    as -> by reflexivity.
  cbn [Py.bind TeamID_SeedValue SeedValue_column seed_rows sd fresh_seeds map
       combine TeamID fst snd].
  f_equal.
  assert (NoDup (map fst [(A, 2); (B, 7)])) as Hseeds.
  { simpl; repeat constructor; simpl; intuition. }
  rewrite (merge_seeds_unique _ _ Hseeds), map_map.
  set (h := fun k => {| stats := team_row season k; SeedValue := _ |}).
  assert (forall x, stats_key (h x) = x) as Hh by reflexivity.
  assert (NoDup (map stats_key (map h (group_keys (winners season))))) as Hkeys.
  { rewrite map_map, (map_ext _ (fun x => x) Hh), map_id; apply group_keys_NoDup. }
  rewrite merge_tourney_results_rows; cbn [flat_map played WTeamID LTeamID].
  rewrite !(partners_unique _ _ _ Hkeys), !(find_keyed h) by assumption.
  cbn [flat_map map app model_data]; f_equal.
  unfold features, join_row, h, stat, cell, team_row, scenario_row;
    cbn [W_WinPercentage L_WinPercentage W_AvgPointsScored L_AvgPointsScored
         W_AvgPointsAllowed L_AvgPointsAllowed W_PointDifferential
         L_PointDifferential W_SeedValue L_SeedValue stats SeedValue
         WinPercentage AvgPointsScored AvgPointsAllowed PointDifferential
         team_WTeamID find fst snd].
  rewrite HcAw, HcAl, HcBw, HcBl.
  rewrite (mean_Permutation _ _ HAw), (mean_Permutation _ _ HAl),
    (mean_Permutation _ _ HBw), (mean_Permutation _ _ HBl).
  rewrite !Z.eqb_refl, (proj2 (Z.eqb_neq A B) HAB).
  reflexivity.
Qed.

Lemma end_to_end_scenario_witness :
  feature_table pandas_2 scenario = Ok [scenario_row].
Proof.
  apply (end_to_end_scenario pandas_2 scenario_season 1101 1102).
  - discriminate.
  - right; intro T; simpl; intuition.
  - simpl; apply Permutation_refl.
  - simpl; apply Permutation_refl.
  - simpl; apply Permutation_refl.
  - simpl. apply perm_trans with [75; 70; 80]; [apply perm_skip, perm_swap|apply perm_swap].
Defined.

(** ** Running the cells again (C9) *)

Lemma assign_SeedValue_rows (sd sd' : SeedsFrame) :
  assign_SeedValue sd = Ok sd' ->
  seed_rows sd' = seed_rows sd /\ assign_SeedValue sd' = Ok sd'.
Proof.
  unfold assign_SeedValue.
  destruct (Series_apply SeedValue_of (map Seed (seed_rows sd))) as [vs|e] eqn:E;
    simpl; [|discriminate].
  intros [= <-]; simpl; split; [reflexivity|now rewrite E].
Qed.

Lemma seeded_team_stats_again
    (pd : Pandas.version) (season : list GameRecord) (sd sd' : SeedsFrame)
    (ts : list SeededTeamStats) :
  seeded_team_stats pd season sd = Ok (ts, sd') ->
  seed_rows sd' = seed_rows sd /\
  seeded_team_stats pd season sd' = Ok (ts, sd').
Proof.
  unfold seeded_team_stats.
  destruct (team_stats pd season) as [t|e]; cbn [Py.bind]; [|discriminate].
  destruct (assign_SeedValue sd) as [sd1|e] eqn:Hsd; cbn [Py.bind];
    [|discriminate].
  destruct (TeamID_SeedValue sd1) as [vs|e] eqn:Hvs; cbn [Py.bind];
    [|discriminate].
  intros [= <- <-].
  destruct (assign_SeedValue_rows _ _ Hsd) as [Hrows Hagain].
  split; [assumption|].
  rewrite Hagain; cbn [Py.bind]; now rewrite Hvs.
Qed.

Lemma notebook_Ok_inv (pd : Pandas.version) (ns ns1 : Namespace) :
  notebook pd ns = Ok ns1 ->
  exists rows ts sd',
    var_tourney_results ns = Loaded rows /\
    seeded_team_stats pd (var_season_results ns) (var_seeds ns) = Ok (ts, sd') /\
    ns1 = {| var_season_results := var_season_results ns;
             var_tourney_results := Joined (merge_tourney_results rows ts) true;
             var_seeds := sd';
             var_team_stats := Some ts;
             var_model_data := Some (model_data (merge_tourney_results rows ts)) |}.
Proof.
  unfold notebook, cells_2_to_4.
  destruct (seeded_team_stats pd _ _) as [[ts sd']|e]; cbn [Py.bind fst snd];
    [|discriminate].
  destruct (var_tourney_results ns) as [rows|rows diffs]; cbn [cell_4 Py.bind];
    [|discriminate].
  unfold cell_5; cbn [var_tourney_results var_season_results var_seeds
                      var_team_stats].
  intros [= <-]; now exists rows, ts, sd'.
Qed.

Lemma notebook_after_cell_1 (pd : Pandas.version) (files : Tables) (ns : Namespace) :
  notebook pd (cell_1 files ns) = notebook pd (started files).
Proof.
  unfold notebook, cells_2_to_4, cell_1, started;
    cbn [var_season_results var_tourney_results var_seeds].
  destruct (seeded_team_stats pd _ _) as [[ts sd']|e]; reflexivity.
Qed.

Lemma notebook_started (pd : Pandas.version) (files : Tables) :
  notebook pd (started files) =
  seeded <- seeded_team_stats pd (season_results files) (seeds files) ;;
  Ok {| var_season_results := season_results files;
        var_tourney_results :=
          Joined (merge_tourney_results (tourney_results files) (fst seeded)) true;
        var_seeds := snd seeded;
        var_team_stats := Some (fst seeded);
        var_model_data :=
          Some (model_data
                  (merge_tourney_results (tourney_results files) (fst seeded))) |}.
Proof.
  unfold notebook, cells_2_to_4, started;
    cbn [var_season_results var_tourney_results var_seeds].
  destruct (seeded_team_stats pd _ _) as [[ts sd']|e]; reflexivity.
Qed.

(** C9, as stated, fails: after a first execution of cells 2 to 5 on the
    tables of the scenario, a second execution in the same kernel does not
    give the feature table again: the name [tourney_results] now holds the
    joined frame and cell 4 raises. *)
Lemma C9_second_run_raises :
  ~ second_run_gives_same_table pandas_2 (started scenario) /\
  ~ second_run_gives_same_table pandas_3 (started scenario).
Proof.
  split; intro H; destruct (H _ eq_refl) as [ns2 [Hrun _]];
    vm_compute in Hrun; discriminate Hrun.
Qed.

(** C9 (amended): state is carried from one execution of cells 2 to 5 to the
    next through the names the cells rebind.  Started after cell 1, the
    cells give the feature table of the loaded tables whatever the names
    [team_stats] and [model_data] held before; they leave [season_results]
    and the rows of [seeds] as loaded, and [tourney_results] bound to the
    joined frame.  A second execution without reloading therefore raises
    [KeyError] on [WTeamID] in cell 4, whereas reloading with cell 1 and
    executing the cells again gives the same names, feature table
    included. *)
Theorem second_run_needs_a_reload
    (pd : Pandas.version) (files : Tables) (ns : Namespace) :
  notebook pd (cell_1 files ns) = notebook pd (started files) /\
  (forall rows, feature_table pd files = Ok rows ->
   exists ns1,
     notebook pd (cell_1 files ns) = Ok ns1 /\ var_model_data ns1 = Some rows) /\
  (forall ns1, notebook pd (cell_1 files ns) = Ok ns1 ->
   (exists joined,
      joined_rows pd files = Ok joined /\
      feature_table pd files = Ok (model_data joined) /\
      var_tourney_results ns1 = Joined joined true /\
      var_model_data ns1 = Some (model_data joined)) /\
   var_season_results ns1 = season_results files /\
   seed_rows (var_seeds ns1) = seed_rows (seeds files) /\
   notebook pd (cell_1 files ns1) = Ok ns1) /\
  (forall ns0 ns1,
     notebook pd ns0 = Ok ns1 -> notebook pd ns1 = Raise (KeyError "WTeamID")).
Proof.
  split; [apply notebook_after_cell_1|split; [|split]].
  - intros rows; rewrite notebook_after_cell_1, notebook_started.
    unfold feature_table, joined_rows.
    destruct (seeded_team_stats pd _ _) as [[ts sd']|e]; cbn [Py.bind fst snd];
      [|discriminate].
    intros [= <-]; eexists; split; reflexivity.
  - intros ns1 Hrun; rewrite notebook_after_cell_1.
    rewrite notebook_after_cell_1, notebook_started in Hrun.
    rewrite notebook_started.
    unfold feature_table, joined_rows.
    destruct (seeded_team_stats pd _ _) as [[ts sd']|e] eqn:Hseeded;
      cbn [Py.bind fst snd] in *; [|discriminate].
    injection Hrun as <-;
      cbn [var_tourney_results var_model_data var_season_results var_seeds].
    split; [eexists; repeat split|].
    split; [reflexivity|split; [|reflexivity]].
    now apply (seeded_team_stats_again pd _ _ _ _ Hseeded).
  - intros ns0 ns1 Hrun.
    apply notebook_Ok_inv in Hrun as (rows & ts & sd' & _ & Hseeded & ->).
    unfold notebook, cells_2_to_4;
      cbn [var_season_results var_tourney_results var_seeds].
    destruct (seeded_team_stats_again pd _ _ _ _ Hseeded) as [_ ->].
    reflexivity.
Qed.

Lemma second_run_needs_a_reload_witness :
  exists ns1,
    notebook pandas_2 (started scenario) = Ok ns1 /\
    var_model_data ns1 = Some [scenario_row] /\
    notebook pandas_2 ns1 = Raise (KeyError "WTeamID") /\
    notebook pandas_2 (cell_1 scenario ns1) = Ok ns1.
Proof.
  destruct (second_run_needs_a_reload pandas_2 scenario (started scenario))
    as (_ & Hreturns & Hleft & Hagain).
  destruct (Hreturns [scenario_row]) as [ns1 [Hrun Hdata]];
    [vm_compute; reflexivity|].
  exists ns1; split; [exact Hrun|split; [exact Hdata|split]].
  - exact (Hagain _ _ Hrun).
  - destruct (Hleft ns1 Hrun) as (_ & _ & _ & Hreload); exact Hreload.
Defined.

(* ================================================================== *)
(** * Further properties of the cells *)

(** ** Cell 2 *)



(** X2: the rows of [team_stats] come in strictly increasing order of team
    ID, so no team has two rows, whatever the order of the games. *)
Theorem team_stats_sorted_by_team
    (pd : Pandas.version) (games : list GameRecord) (t : list TeamStats) :
  team_stats pd games = Ok t ->
  increasing (map team_WTeamID t) /\ NoDup (map team_WTeamID t).
Proof.
  intro Ht; apply team_stats_Ok_inv in Ht as ->.
  rewrite map_map; simpl; rewrite map_id.
  split; [apply group_keys_increasing|apply group_keys_NoDup].
Qed.

Lemma team_stats_sorted_by_team_witness :
  exists t, team_stats pandas_2 scenario_season = Ok t /\
            map team_WTeamID t = [1101; 1102; 1103] /\
            NoDup (map team_WTeamID t).
Proof.
  eexists; split; [vm_compute; reflexivity|split; [reflexivity|]].
  apply (team_stats_sorted_by_team pandas_2 scenario_season);
    vm_compute; reflexivity.
Defined.

(** Quotient of two integer cells with a positive divisor. *)
Lemma fdiv_ints (a n : Z) :
  1 <= n ->
  exists q, fdiv (of_int a) (of_int n) = Finite q /\ (q == inject_Z a / inject_Z n)%Q.
Proof.
  intro Hn; unfold fdiv, of_int, fin.
  destruct (Qeq_bool (Qred (inject_Z n)) 0) eqn:E.
  - apply Qeq_bool_eq in E; rewrite Qred_correct in E.
    unfold Qeq in E; simpl in E; lia.
  - eexists; split; [reflexivity|now rewrite !Qred_correct].
Qed.

Lemma sum_bounds (xs : list Z) (lo hi : Z) :
  (forall x, In x xs -> lo <= x <= hi) ->
  lo * Z.of_nat (List.length xs) <= fold_right Z.add 0 xs <=
  hi * Z.of_nat (List.length xs).
Proof.
  induction xs as [|x xs IH]; intro H; [simpl; lia|].
  assert (lo <= x <= hi) by (apply H; now left).
  assert (forall y, In y xs -> lo <= y <= hi) as H' by (intros; apply H; now right).
  specialize (IH H'); cbn [fold_right List.length]; lia.
Qed.

Lemma mean_bounds (xs : list Z) (lo hi : Z) :
  xs <> [] -> (forall x, In x xs -> lo <= x <= hi) ->
  exists q, mean xs = Finite q /\ (inject_Z lo <= q <= inject_Z hi)%Q.
Proof.
  intros Hne Hb; unfold mean.
  assert (1 <= Z.of_nat (List.length xs)) as Hn
    by (destruct xs; [congruence|simpl; lia]).
  destruct (fdiv_ints (fold_right Z.add 0 xs) _ Hn) as [q [Hq Heq]].
  exists q; split; [assumption|]; rewrite Heq.
  pose proof (sum_bounds xs lo hi Hb) as [Hlo Hhi].
  assert (0 < inject_Z (Z.of_nat (List.length xs)))%Q as Hpos
    by (rewrite <- (Zlt_Qlt 0); lia).
  split.
  - apply Qle_shift_div_l; [assumption|].
    rewrite <- inject_Z_mult, <- Zle_Qle; assumption.
  - apply Qle_shift_div_r; [assumption|].
    rewrite <- inject_Z_mult, <- Zle_Qle; assumption.
Qed.

Lemma filter_key_nonempty {A : Type} (key : A -> Z) (k : Z) (df : list A) :
  In k (map key df) -> filter (fun r => key r =? k) df <> [].
Proof.
  intros Hin Hnil; apply in_map_iff in Hin as (a & Ha & Hin).
  assert (In a (filter (fun r => key r =? k) df)) as H
    by (apply filter_In; split; [assumption|now apply Z.eqb_eq]).
  now rewrite Hnil in H.
Qed.

(** X3: in every row of [team_stats] the average points scored is a number,
    and the average points allowed is a number exactly when the team lost a
    game; for a team that never lost (possible with pandas 3 only) it is
    missing, and so is the point differential.  When every score of the
    game log lies between [lo] and [hi], so do the averages, and the point
    differential of a team that lost a game is the number
    scored - allowed. *)
Theorem averages_within_scores
    (pd : Pandas.version) (games : list GameRecord) (t : list TeamStats)
    (r : TeamStats) (lo hi : Z) :
  team_stats pd games = Ok t -> In r t ->
  (forall g, In g games -> lo <= WScore g <= hi /\ lo <= LScore g <= hi) ->
  exists s,
    AvgPointsScored r = Finite s /\ (inject_Z lo <= s <= inject_Z hi)%Q /\
    ((In (team_WTeamID r) (losers games) /\
      exists a d,
        AvgPointsAllowed r = Finite a /\ PointDifferential r = Finite d /\
        (inject_Z lo <= a <= inject_Z hi)%Q /\ (d == s - a)%Q) \/
     (~ In (team_WTeamID r) (losers games) /\
      AvgPointsAllowed r = NaN /\ PointDifferential r = NaN)).
Proof.
  intros Ht Hr Hscores; apply team_stats_Ok_inv in Ht as ->.
  apply in_map_iff in Hr as [k [<- Hk]].
  assert (In k (winners games)) as Hw by now apply group_keys_In.
  destruct (mean_bounds
              (map WScore (filter (fun g => WTeamID g =? k) games)) lo hi)
    as [s [Hs Hsb]].
  { intro H; apply map_eq_nil in H; now apply (filter_key_nonempty WTeamID k games). }
  { intros x Hx; apply in_map_iff in Hx as (g & <- & Hg).
    apply filter_In in Hg as [Hg _]; now apply Hscores. }
  exists s; cbn [team_row AvgPointsScored AvgPointsAllowed PointDifferential
                 team_WTeamID].
  rewrite Hs; split; [reflexivity|split; [exact Hsb|]].
  destruct (in_dec Z.eq_dec k (losers games)) as [Hl|Hl].
  - left; split; [assumption|].
    destruct (mean_bounds
                (map LScore (filter (fun g => LTeamID g =? k) games)) lo hi)
      as [a [Ha Hab]].
    { intro H; apply map_eq_nil in H; now apply (filter_key_nonempty LTeamID k games). }
    { intros x Hx; apply in_map_iff in Hx as (g & <- & Hg).
      apply filter_In in Hg as [Hg _]; now apply Hscores. }
    exists a, (Qred (s - a)); rewrite Ha.
    split; [reflexivity|split; [reflexivity|split; [exact Hab|]]].
    apply Qred_correct.
  - right; split; [assumption|].
    rewrite (filter_absent LTeamID k games) by assumption.
    split; reflexivity.
Qed.

Lemma averages_within_scores_witness :
  exists s,
    AvgPointsScored (team_row [played 2024 1101 70 1102 60] 1101) = Finite s /\
    (inject_Z 50 <= s <= inject_Z 90)%Q /\
    ((In 1101 (losers [played 2024 1101 70 1102 60]) /\
      exists a d,
        AvgPointsAllowed (team_row [played 2024 1101 70 1102 60] 1101) = Finite a /\
        PointDifferential (team_row [played 2024 1101 70 1102 60] 1101) = Finite d /\
        (inject_Z 50 <= a <= inject_Z 90)%Q /\ (d == s - a)%Q) \/
     (~ In 1101 (losers [played 2024 1101 70 1102 60]) /\
      AvgPointsAllowed (team_row [played 2024 1101 70 1102 60] 1101) = NaN /\
      PointDifferential (team_row [played 2024 1101 70 1102 60] 1101) = NaN)).
Proof.
  apply (averages_within_scores pandas_3 [played 2024 1101 70 1102 60]
           [team_row [played 2024 1101 70 1102 60] 1101]).
  - vm_compute; reflexivity.
  - simpl; tauto.
  - intros g [<-|[]]; simpl; lia.
Defined.

(** X4: the win percentage of a row of [team_stats] is never 0: it is a
    number above 0 and at most 1, and it is 1 exactly for a team that never
    lost, whose games played are its wins (such a row exists with pandas 3
    only). *)
Theorem WinPercentage_of_a_winner
    (pd : Pandas.version) (games : list GameRecord) (t : list TeamStats)
    (r : TeamStats) :
  team_stats pd games = Ok t -> In r t ->
  exists games_played pct,
    TotalGames r = of_int games_played /\ 1 <= Wins r <= games_played /\
    WinPercentage r = Finite pct /\ (0 < pct <= 1)%Q /\
    (Wins r = games_played <-> ~ In (team_WTeamID r) (losers games)) /\
    ((pct == 1)%Q <-> ~ In (team_WTeamID r) (losers games)).
Proof.
  intros Ht Hr; apply team_stats_Ok_inv in Ht as ->.
  apply in_map_iff in Hr as [k [<- Hk]].
  assert (In k (winners games)) as Hw by now apply group_keys_In.
  pose proof (count_pos k _ Hw) as Hcw.
  pose proof (count_nonneg k (losers games)) as Hcl.
  assert (count k (losers games) = 0 <-> ~ In k (losers games)) as Hzero.
  { split; [intros H0 Hin; apply count_pos in Hin; lia|apply count_zero]. }
  set (w := count k (winners games)) in *; set (l := count k (losers games)) in *.
  destruct (fdiv_ints w (w + l)) as [q [Hq Heq]]; [lia|].
  assert (0 < inject_Z (w + l))%Q as Hpos by (rewrite <- (Zlt_Qlt 0); lia).
  exists (w + l), q; cbn [team_row TotalGames Wins WinPercentage team_WTeamID].
  fold (winners games) (losers games); fold w l.
  split; [reflexivity|split; [lia|split; [assumption|]]].
  split; [|split].
  - rewrite Heq; split.
    + apply Qlt_shift_div_l; [assumption|].
      rewrite Qmult_0_l, <- (Zlt_Qlt 0); lia.
    + apply Qle_shift_div_r; [assumption|].
      rewrite Qmult_1_l, <- Zle_Qle; lia.
  - rewrite <- Hzero; lia.
  - assert (~ inject_Z (w + l) == 0)%Q as Hnz
      by (intro H0; rewrite H0 in Hpos; now apply Qlt_irrefl in Hpos).
    rewrite <- Hzero, Heq; split; intro H.
    + assert (inject_Z w == inject_Z (w + l))%Q as Hwl.
      { rewrite <- (Qmult_div_r (inject_Z w) (inject_Z (w + l))) at 1
          by assumption.
        rewrite H; ring. }
      apply (proj1 (inject_Z_injective w (w + l))) in Hwl; lia.
    + rewrite H, Z.add_0_r; unfold Qdiv; apply Qmult_inv_r.
      intro H0; apply (proj1 (inject_Z_injective w 0)) in H0; lia.
Qed.

Lemma WinPercentage_of_a_winner_witness :
  exists games_played pct,
    TotalGames (team_row [played 2024 1101 70 1102 60] 1101) = of_int games_played /\
    1 <= Wins (team_row [played 2024 1101 70 1102 60] 1101) <= games_played /\
    WinPercentage (team_row [played 2024 1101 70 1102 60] 1101) = Finite pct /\
    (0 < pct <= 1)%Q /\
    (Wins (team_row [played 2024 1101 70 1102 60] 1101) = games_played <->
     ~ In 1101 (losers [played 2024 1101 70 1102 60])) /\
    ((pct == 1)%Q <-> ~ In 1101 (losers [played 2024 1101 70 1102 60])).
Proof.
  apply (WinPercentage_of_a_winner pandas_3 [played 2024 1101 70 1102 60]
           [team_row [played 2024 1101 70 1102 60] 1101]).
  - vm_compute; reflexivity.
  - simpl; tauto.
Defined.

Lemma filter_Permutation {A : Type} (p : A -> bool) (l l' : list A) :
  Permutation l l' -> Permutation (filter p l) (filter p l').
Proof.
  induction 1 as [|x l l' H IH|x y l|l l' l'' H1 IH1 H2 IH2]; simpl.
  - constructor.
  - destruct (p x); [now constructor|assumption].
  - destruct (p x), (p y); try apply Permutation_refl; apply perm_swap.
  - now apply perm_trans with (filter p l').
Qed.

Lemma count_Permutation (k : Z) (c c' : list Z) :
  Permutation c c' -> count k c = count k c'.
Proof.
  intro H; unfold count; f_equal.
  apply Permutation_length, filter_Permutation, H.
Qed.

Lemma team_row_Permutation (g g' : list GameRecord) (k : Z) :
  Permutation g g' -> team_row g k = team_row g' k.
Proof.
  intro H; unfold team_row.
  rewrite (count_Permutation k _ _ (Permutation_map WTeamID H)).
  rewrite (count_Permutation k _ _ (Permutation_map LTeamID H)).
  rewrite (mean_Permutation _ _
             (Permutation_map WScore (filter_Permutation (fun x => WTeamID x =? k) _ _ H))).
  rewrite (mean_Permutation _ _
             (Permutation_map LScore (filter_Permutation (fun x => LTeamID x =? k) _ _ H))).
  reflexivity.
Qed.

(** X5: the order of the rows of the season log does not matter: two logs
    with the same games in a different order give the same [team_stats], or
    the same exception. *)
Theorem team_stats_ignores_game_order
    (pd : Pandas.version) (games games' : list GameRecord) :
  Permutation games games' -> team_stats pd games = team_stats pd games'.
Proof.
  intro H; rewrite !team_stats_closed_form.
  assert (forall key : GameRecord -> Z,
            group_keys (map key games) = group_keys (map key games')) as Hkeys.
  { intro key; apply group_keys_ext; intro x; split; apply Permutation_in;
      [|apply Permutation_sym]; now apply Permutation_map. }
  unfold table_is_produced, winners, losers; rewrite !Hkeys.
  destruct (match pd with pandas_2 => _ | pandas_3 => _ end); [|reflexivity].
  f_equal; apply map_ext; intro k; now apply team_row_Permutation.
Qed.

Lemma team_stats_ignores_game_order_witness :
  team_stats pandas_2 scenario_season = team_stats pandas_2 (rev scenario_season).
Proof.
  apply team_stats_ignores_game_order, Permutation_rev.
Defined.

(** ** Cell 3 *)

Lemma Series_apply_Ok {A B : Type} (f : A -> result B) (l : list A) (bs : list B) :
  Series_apply f l = Ok bs <-> Forall2 (fun a b => f a = Ok b) l bs.
Proof.
  revert bs; induction l as [|a l IH]; intro bs; simpl.
  - split; [intros [= <-]; constructor|inversion 1; reflexivity].
  - split.
    + destruct (f a) as [b|e] eqn:Ea; simpl; [|discriminate].
      destruct (Series_apply f l) as [bs'|e] eqn:El; simpl; [|discriminate].
      intros [= <-]; constructor; [assumption|now apply IH].
    + inversion 1 as [|? b ? bs' Hab Hrest]; subst.
      rewrite Hab; simpl.
      rewrite (proj2 (IH bs') Hrest); reflexivity.
Qed.

Lemma Series_apply_Raise {A B : Type} (f : A -> result B)
    (pre : list A) (bad : A) (post : list A) (e : PyError) :
  (forall a, In a pre -> exists b, f a = Ok b) -> f bad = Raise e ->
  Series_apply f (pre ++ bad :: post) = Raise e.
Proof.
  intros Hpre Hbad; induction pre as [|a pre IH]; simpl.
  - now rewrite Hbad.
  - destruct (Hpre a (or_introl eq_refl)) as [b ->]; simpl.
    rewrite IH; [reflexivity|intros; apply Hpre; now right].
Qed.

(** X6: the seed column is all or nothing.  When cell 3 assigns it, the seed
    table keeps its rows and the column holds, row by row, the parsed value
    of the seed code; when some code does not parse, the assignment raises
    the error of the first such code in row order and assigns nothing. *)
Theorem assign_SeedValue_all_or_nothing (sd : SeedsFrame) :
  (forall sd', assign_SeedValue sd = Ok sd' ->
   seed_rows sd' = seed_rows sd /\
   exists values,
     SeedValue_column sd' = Some values /\
     Forall2 (fun entry v => SeedValue_of (Seed entry) = Ok v)
             (seed_rows sd) values) /\
  (forall pre bad post e,
     seed_rows sd = pre ++ bad :: post ->
     (forall entry, In entry pre -> exists v, SeedValue_of (Seed entry) = Ok v) ->
     SeedValue_of (Seed bad) = Raise e ->
     assign_SeedValue sd = Raise e).
Proof.
  unfold assign_SeedValue; split.
  - intros sd'.
    destruct (Series_apply SeedValue_of (map Seed (seed_rows sd))) as [vs|e] eqn:E;
      cbn [Py.bind]; [|discriminate].
    intros [= <-]; split; [reflexivity|]; exists vs; split; [reflexivity|].
    apply Series_apply_Ok in E.
    remember (seed_rows sd) as rows eqn:Hrows; clear Hrows.
    revert vs E; induction rows as [|r rows IH]; intros vs E;
      inversion E; subst; constructor; auto.
  - intros pre bad post e Hrows Hpre Hbad.
    rewrite Hrows, map_app; cbn [map].
    rewrite (Series_apply_Raise SeedValue_of (map Seed pre) (Seed bad)
               (map Seed post) e); [reflexivity| |assumption].
    intros code Hcode; apply in_map_iff in Hcode as (entry & <- & Hentry).
    now apply Hpre.
Qed.

Lemma assign_SeedValue_all_or_nothing_witness :
  assign_SeedValue
    (fresh_seeds [mkSeed 2024 "W01" 1101; mkSeed 2024 "W0A" 1102;
                  mkSeed 2024 "XYZ" 1103]) = Raise (ValueError "0A").
Proof.
  apply (proj2 (assign_SeedValue_all_or_nothing _)
           [mkSeed 2024 "W01" 1101] (mkSeed 2024 "W0A" 1102)
           [mkSeed 2024 "XYZ" 1103]).
  - reflexivity.
  - intros entry [<-|[]]; exists 1; reflexivity.
  - reflexivity.
Defined.

Lemma digit_value_range (c : ascii) :
  is_digit c = true -> 0 <= digit_value c <= 9.
Proof.
  unfold is_digit, digit_value; intro H.
  apply andb_prop in H as [H1 H2].
  apply Nat.leb_le in H1, H2; lia.
Qed.

(** X7: a seed value is never below -9 nor above 99, whatever the seed code:
    the parser reads two characters at most. *)
Theorem SeedValue_of_range (x : string) (v : Z) :
  SeedValue_of x = Ok v -> -9 <= v <= 99.
Proof.
  unfold SeedValue_of.
  destruct x as [|c [|d1 [|d2 rest]]].
  - discriminate.
  - discriminate.
  - unfold Py.slice, Py.int, unsigned_literal; simpl.
    repeat (match goal with
            | |- context [if ?b then _ else _] => destruct b eqn:?
            end; simpl); try discriminate.
    intros [= <-].
    match goal with H : is_digit _ = true |- _ =>
      apply digit_value_range in H end; lia.
  - rewrite slice_1_3; unfold Py.int, unsigned_literal; simpl.
    repeat (match goal with
            | |- context [if ?b then _ else _] => destruct b eqn:?
            end; simpl); try discriminate;
    intros [= <-];
    repeat match goal with H : is_digit _ = true |- _ =>
      apply digit_value_range in H end; try lia.
    destruct (digit_value d1); lia.
Qed.

Lemma SeedValue_of_range_witness :
  SeedValue_of "Z16b" = Ok 16 /\ -9 <= 16 <= 99.
Proof. split; [reflexivity|apply (SeedValue_of_range "Z16b"); reflexivity]. Defined.

(** X8: the seed value depends on the second and third characters only: the
    region letter and whatever follows the third character (the letter of a
    play-in seed) are ignored. *)
Theorem SeedValue_of_ignores_region_and_suffix
    (c c' d1 d2 : ascii) (rest rest' : string) :
  SeedValue_of (String c (String d1 (String d2 rest))) =
  SeedValue_of (String c' (String d1 (String d2 rest'))).
Proof. unfold SeedValue_of; now rewrite !slice_1_3. Qed.

Lemma partners_cases {B : Type} (right_on : B -> Z) (k : Z) (r : list B)
    (p : option B) :
  In p (partners right_on k r) ->
  (p = None /\ ~ In k (map right_on r)) \/
  (exists b, p = Some b /\ In b r /\ right_on b = k).
Proof.
  unfold partners; destruct (filter _ r) as [|b0 bs] eqn:E.
  - intros [<-|[]]; left; split; [reflexivity|].
    intro Hin; apply in_map_iff in Hin as (b & Hb & Hin).
    assert (In b (filter (fun b => right_on b =? k) r)) as H
      by (apply filter_In; split; [assumption|now apply Z.eqb_eq]).
    now rewrite E in H.
  - rewrite <- E; intro Hin; apply in_map_iff in Hin as (b & <- & Hb).
    apply filter_In in Hb as [Hb Hk]; right; exists b.
    repeat split; [assumption|now apply Z.eqb_eq].
Qed.

(** X9: attaching the seeds never drops a team and never alters its
    statistics.  A team without seed entry keeps one row, with a missing
    seed value; a team with [n] seed entries gets [n] rows, one per entry,
    each with that entry's value.  With at most one entry per team the rows
    of [team_stats] are the same as before, in the same order. *)
Theorem merge_seeds_keeps_every_team
    (ts : list TeamStats) (seed_values : list (Z * Z)) :
  List.length (merge_seeds ts seed_values) =
    fold_right (fun t n => (seed_slots (team_WTeamID t) seed_values + n)%nat)
               0%nat ts /\
  (List.length ts <= List.length (merge_seeds ts seed_values))%nat /\
  (forall t, In t ts -> exists r, In r (merge_seeds ts seed_values) /\ stats r = t) /\
  (forall r, In r (merge_seeds ts seed_values) ->
   In (stats r) ts /\
   ((SeedValue r = NaN /\ ~ In (stats_key r) (map fst seed_values)) \/
    (exists v, In (stats_key r, v) seed_values /\ SeedValue r = of_int v))) /\
  (NoDup (map fst seed_values) -> map stats (merge_seeds ts seed_values) = ts).
Proof.
  unfold merge_seeds.
  split; [apply merge_left_length|].
  split; [|split; [|split]].
  - rewrite merge_left_length.
    induction ts as [|t ts IH]; simpl; [lia|].
    pose proof (partners_nonempty fst (team_WTeamID t) seed_values); lia.
  - intros t Ht; rewrite merge_left_partners.
    destruct (partners fst (team_WTeamID t) seed_values) as [|p ps] eqn:E.
    { pose proof (partners_nonempty fst (team_WTeamID t) seed_values) as Hp.
      rewrite E in Hp; simpl in Hp; lia. }
    exists {| stats := t; SeedValue := cell (fun e => of_int (snd e)) p |}.
    split; [|reflexivity].
    apply in_flat_map; exists t; split; [assumption|].
    rewrite E; left; reflexivity.
  - intros r Hr; rewrite merge_left_partners in Hr.
    apply in_flat_map in Hr as (t & Ht & Hr).
    apply in_map_iff in Hr as (p & <- & Hp).
    split; [assumption|]; unfold stats_key; cbn [stats SeedValue].
    apply partners_cases in Hp as [[-> Habs]|(e & -> & He & Hk)].
    + left; split; [reflexivity|assumption].
    + right; exists (snd e); split; [|reflexivity].
      rewrite <- Hk; now destruct e.
  - intro Hnd; rewrite merge_left_unique by assumption.
    rewrite map_map; cbn [stats]; apply map_id.
Qed.

Lemma merge_seeds_keeps_every_team_witness :
  map stats (merge_seeds (map (team_row scenario_season) [1101; 1102; 1103])
                         [(1101, 2); (1102, 7)]) =
  map (team_row scenario_season) [1101; 1102; 1103].
Proof.
  apply merge_seeds_keeps_every_team.
  repeat (constructor; [simpl; intuition discriminate|]); constructor.
Defined.

(** ** Cells 4 and 5 *)

Lemma fsub_NaN_r (a : float64) : fsub a NaN = NaN.
Proof. now destruct a. Qed.

Lemma missing_side (g : GameRecord) (w l : option SeededTeamStats)
    (ts : list SeededTeamStats) :
  In w (partners stats_key (WTeamID g) ts) ->
  In l (partners stats_key (LTeamID g) ts) ->
  ~ In (WTeamID g) (map stats_key ts) \/ ~ In (LTeamID g) (map stats_key ts) ->
  features (join_row g w l) = missing_features.
Proof.
  intros Hw Hl [Habs|Habs].
  - rewrite partners_absent in Hw by assumption; destruct Hw as [<-|[]].
    reflexivity.
  - rewrite partners_absent in Hl by assumption; destruct Hl as [<-|[]].
    unfold features, missing_features; cbn [join_row cell L_WinPercentage
      L_AvgPointsScored L_AvgPointsAllowed L_PointDifferential L_SeedValue].
    now rewrite !fsub_NaN_r.
Qed.

(** X10: a tournament game one of whose teams has no row in [team_stats]
    still gets its feature row, and the five differences of that row are all
    missing, whatever the statistics of the other team: the joined frame
    holds a row of that game, and every joined row of such a game has the
    five differences missing. *)
Theorem missing_side_gives_missing_features
    (tr : list GameRecord) (ts : list SeededTeamStats) (g : GameRecord) :
  In g tr ->
  ~ In (WTeamID g) (map stats_key ts) \/ ~ In (LTeamID g) (map stats_key ts) ->
  (exists r, In r (merge_tourney_results tr ts) /\ game r = g) /\
  (forall r, In r (merge_tourney_results tr ts) -> game r = g ->
             features r = missing_features) /\
  (forall r, In r (merge_tourney_results tr ts) ->
             ~ In (WTeamID (game r)) (map stats_key ts) \/
             ~ In (LTeamID (game r)) (map stats_key ts) ->
             features r = missing_features).
Proof.
  intros Hg Habs.
  assert (forall r, In r (merge_tourney_results tr ts) ->
                    ~ In (WTeamID (game r)) (map stats_key ts) \/
                    ~ In (LTeamID (game r)) (map stats_key ts) ->
                    features r = missing_features) as Hall.
  { intros r Hr Hside.
    apply in_merge_tourney_results in Hr as (g' & w & l & _ & Hw & Hl & ->).
    now apply (missing_side g' w l ts). }
  split; [|split; [|exact Hall]].
  - pose proof (partners_nonempty stats_key (WTeamID g) ts) as Hnw.
    pose proof (partners_nonempty stats_key (LTeamID g) ts) as Hnl.
    destruct (partners stats_key (WTeamID g) ts) as [|w ws] eqn:Ew;
      [simpl in Hnw; lia|].
    destruct (partners stats_key (LTeamID g) ts) as [|l ls] eqn:El;
      [simpl in Hnl; lia|].
    exists (join_row g w l); split; [|reflexivity].
    apply in_merge_tourney_results; exists g, w, l.
    rewrite Ew, El; simpl; tauto.
  - intros r Hr <-; now apply Hall.
Qed.

Lemma missing_side_gives_missing_features_witness :
  let g := played 2024 1101 88 1199 75 in
  let rows :=
    merge_tourney_results [played 2024 1103 60 1101 59; g]
      (merge_seeds (map (team_row scenario_season) [1101; 1102; 1103])
                   [(1101, 2); (1102, 7)]) in
  (exists r, In r rows /\ game r = g) /\
  (forall r, In r rows -> game r = g -> features r = missing_features) /\
  (forall r, In r rows ->
             ~ In (WTeamID (game r)) [1101; 1102; 1103] \/
             ~ In (LTeamID (game r)) [1101; 1102; 1103] ->
             features r = missing_features).
Proof.
  intros g rows.
  apply (missing_side_gives_missing_features
           [played 2024 1103 60 1101 59; g]
           (merge_seeds (map (team_row scenario_season) [1101; 1102; 1103])
                        [(1101, 2); (1102, 7)]) g).
  - simpl; tauto.
  - right; vm_compute; intuition discriminate.
Defined.

Lemma merge_tourney_results_unique (tr : list GameRecord) (ts : list SeededTeamStats) :
  NoDup (map stats_key ts) ->
  merge_tourney_results tr ts =
  map (fun g =>
         join_row g (find (fun t => stats_key t =? WTeamID g) ts)
                    (find (fun t => stats_key t =? LTeamID g) ts))
      tr.
Proof.
  intro Hnd; rewrite merge_tourney_results_rows.
  induction tr as [|g tr IH]; simpl; [reflexivity|].
  rewrite !partners_unique by assumption; simpl; now rewrite IH.
Qed.

(** X11: when [team_stats] has at most one row per team ID, the joined frame
    lists the tournament games in their original order, one row per game:
    its tournament columns are the tournament table itself. *)
Theorem joined_rows_follow_the_games
    (tr : list GameRecord) (ts : list SeededTeamStats) :
  NoDup (map stats_key ts) ->
  map game (merge_tourney_results tr ts) = tr.
Proof.
  intro Hnd; rewrite merge_tourney_results_unique by assumption.
  rewrite map_map; cbn [game join_row]; apply map_id.
Qed.

Lemma joined_rows_follow_the_games_witness :
  map game
    (merge_tourney_results
       [played 2024 1101 88 1102 75; played 2024 1103 60 1101 59]
       (merge_seeds (map (team_row scenario_season) [1101; 1102; 1103])
                    [(1101, 2); (1102, 7)])) =
  [played 2024 1101 88 1102 75; played 2024 1103 60 1101 59].
Proof.
  apply joined_rows_follow_the_games; vm_compute.
  repeat (constructor; [simpl; intuition discriminate|]); constructor.
Defined.

Lemma features_swap (g g' : GameRecord) (w l : option SeededTeamStats) :
  features (join_row g' l w) = negate (features (join_row g w l)).
Proof.
  unfold features, negate; cbn -[fsub fneg]; f_equal; apply fsub_swap.
Qed.

(** X12: when [team_stats] has at most one row per team ID, exchanging winner
    and loser in every tournament game negates the five differences of every
    feature row, row by row; the label stays 1. *)
Theorem swapped_games_negate_the_features
    (tr : list GameRecord) (ts : list SeededTeamStats) :
  NoDup (map stats_key ts) ->
  model_data (merge_tourney_results (map swap_game tr) ts) =
  map negate (model_data (merge_tourney_results tr ts)).
Proof.
  intro Hnd; rewrite !merge_tourney_results_unique by assumption.
  unfold model_data; rewrite !map_map.
  apply map_ext; intro g; cbn [swap_game WTeamID LTeamID].
  apply features_swap.
Qed.

Lemma swapped_games_negate_the_features_witness :
  model_data
    (merge_tourney_results [played 2024 1102 75 1101 88]
       (merge_seeds (map (team_row scenario_season) [1101; 1102; 1103])
                    [(1101, 2); (1102, 7)])) =
  [ {| WinPercentage_Diff := Finite (-1 # 2);
       AvgPointsScored_Diff := Finite (-15);
       AvgPointsAllowed_Diff := Finite 15;
       PointDifferential_Diff := Finite (-30);
       SeedValue_Diff := Finite 5;
       Result := 1 |} ].
Proof.
  set (ts := merge_seeds _ _).
  change [played 2024 1102 75 1101 88]
    with (map swap_game [played 2024 1101 88 1102 75]).
  rewrite (swapped_games_negate_the_features [played 2024 1101 88 1102 75] ts).
  - vm_compute; reflexivity.
  - vm_compute.
    repeat (constructor; [simpl; intuition discriminate|]); constructor.
Defined.

(** ** The whole run *)

Lemma Series_apply_Raise_inv {A B : Type} (f : A -> result B) (l : list A)
    (e : PyError) :
  Series_apply f l = Raise e -> exists a, In a l /\ f a = Raise e.
Proof.
  induction l as [|a l IH]; simpl; [discriminate|].
  destruct (f a) as [b|e'] eqn:Ea; simpl.
  - destruct (Series_apply f l) as [bs|e''] eqn:El; simpl; [discriminate|].
    intros [= <-]; destruct (IH eq_refl) as (x & Hx & Hfx).
    exists x; split; [now right|assumption].
  - intros [= <-]; exists a; split; [now left|assumption].
Qed.

Lemma Series_apply_total {A B : Type} (f : A -> result B) (l : list A) :
  (forall a, In a l -> exists b, f a = Ok b) -> exists bs, Series_apply f l = Ok bs.
Proof.
  induction l as [|a l IH]; intro H; simpl; [now eexists|].
  destruct (H a (or_introl eq_refl)) as [b ->]; simpl.
  destruct IH as [bs ->]; [intros; apply H; now right|]; simpl; now eexists.
Qed.

Lemma feature_table_unfold (pd : Pandas.version) (inp : Tables) :
  feature_table pd inp =
  (ts <- team_stats pd (season_results inp) ;;
   values <- Series_apply SeedValue_of (map Seed (seed_rows (seeds inp))) ;;
   Ok (model_data
         (merge_tourney_results (tourney_results inp)
            (merge_seeds ts
               (combine (map TeamID (seed_rows (seeds inp))) values))))).
Proof.
  unfold feature_table, joined_rows, seeded_team_stats,
    assign_SeedValue, TeamID_SeedValue.
  destruct (team_stats pd (season_results inp)); cbn [Py.bind]; [|reflexivity].
  destruct (Series_apply _ _); reflexivity.
Qed.

(** X13: cells 2 to 5 on the loaded tables can fail in two ways only, and
    cell 2 fails first.  Cell 2 passes with pandas 3, and up to pandas 2.2
    when the teams that won a season game are the teams that lost one.  The
    feature table is produced exactly when cell 2 passes and every seed code
    parses; otherwise the run raises [KeyError] on [WTeamID] if cell 2 does
    not pass, else the [ValueError] of a seed code of the table. *)
Theorem run_outcome (pd : Pandas.version) (inp : Tables) :
  let cell_2_passes :=
    pd = pandas_3 \/
    forall T, In T (winners (season_results inp)) <->
              In T (losers (season_results inp)) in
  let seeds_parse :=
    forall entry, In entry (seed_rows (seeds inp)) ->
                  exists v, SeedValue_of (Seed entry) = Ok v in
  (cell_2_passes -> seeds_parse -> exists rows, feature_table pd inp = Ok rows) /\
  (forall rows, feature_table pd inp = Ok rows -> cell_2_passes /\ seeds_parse) /\
  (~ cell_2_passes -> feature_table pd inp = Raise (KeyError "WTeamID")) /\
  (forall e, feature_table pd inp = Raise e ->
   (~ cell_2_passes /\ e = KeyError "WTeamID") \/
   (cell_2_passes /\
    exists entry, In entry (seed_rows (seeds inp)) /\
                  SeedValue_of (Seed entry) = Raise e)).
Proof.
  intros cell_2_passes seeds_parse; subst cell_2_passes seeds_parse.
  rewrite feature_table_unfold, team_stats_closed_form.
  destruct (table_is_produced pd (season_results inp)) eqn:E; cbn [Py.bind].
  - assert (pd = pandas_3 \/
            forall T, In T (winners (season_results inp)) <->
                      In T (losers (season_results inp))) as Hpass.
    { destruct pd; [right|now left].
      cbn [table_is_produced] in E; apply same_labels_true in E.
      intro T; rewrite <- (group_keys_In T (winners _)), E; apply group_keys_In. }
    split; [|split; [|split]].
    + intros _ Hparse.
      destruct (Series_apply_total SeedValue_of (map Seed (seed_rows (seeds inp))))
        as [vs ->]; [|now eexists].
      intros code Hcode; apply in_map_iff in Hcode as (entry & <- & Hentry).
      now apply Hparse.
    + intros rows Hrows; split; [assumption|].
      destruct (Series_apply _ _) as [vs|e] eqn:Ev; [|discriminate].
      apply Series_apply_Ok in Ev; intros entry Hentry.
      pose proof (in_map Seed _ _ Hentry) as Hcode.
      clear - Ev Hcode; revert Hcode; generalize (Seed entry) as code.
      induction Ev as [|c v cs vs Hc Hrest IH]; intros code [].
      * subst; now exists v.
      * now apply IH.
    + tauto.
    + intros e He.
      destruct (Series_apply _ _) as [vs|e'] eqn:Ev; [discriminate|].
      injection He as <-; right; split; [assumption|].
      apply Series_apply_Raise_inv in Ev as (code & Hcode & Hraise).
      apply in_map_iff in Hcode as (entry & <- & Hentry).
      now exists entry.
  - assert (~ (pd = pandas_3 \/
               forall T, In T (winners (season_results inp)) <->
                         In T (losers (season_results inp)))) as Hfail.
    { intro Hpass; rewrite table_is_produced_same_teams in E by assumption.
      discriminate E. }
    split; [tauto|split; [discriminate|split; [reflexivity|]]].
    intros e [= <-]; now left.
Qed.

Lemma run_outcome_witness :
  let inp :=
    {| season_results := [played 2024 1101 70 1102 60];
       tourney_results := [played 2024 1101 88 1102 75];
       seeds := fresh_seeds [mkSeed 2024 "W0A" 1101] |} in
  feature_table pandas_2 inp = Raise (KeyError "WTeamID") /\
  feature_table pandas_3 inp = Raise (ValueError "0A").
Proof.
  intro inp; split; [|reflexivity].
  apply (run_outcome pandas_2 inp); cbn [season_results inp].
  intros [H|H]; [discriminate H|].
  destruct (proj2 (H 1102)) as [H1|[]]; [simpl; tauto|discriminate H1].
Defined.

(** X14: a constant label and empty inputs.  Every row of the feature table
    has [Result] 1.  With an empty season log a run that raises nothing
    gives one row per tournament game with the five differences missing;
    with an empty tournament table it gives an empty feature table. *)
Theorem labels_and_empty_tables
    (pd : Pandas.version) (inp : Tables) (rows : list FeatureRow) :
  feature_table pd inp = Ok rows ->
  Forall (fun f => Result f = 1) rows /\
  (season_results inp = [] ->
   rows = map (fun _ => missing_features) (tourney_results inp)) /\
  (tourney_results inp = [] -> rows = []).
Proof.
  rewrite feature_table_unfold.
  destruct (team_stats pd (season_results inp)) as [ts|e] eqn:Hts; cbn [Py.bind];
    [|discriminate].
  destruct (Series_apply _ _) as [vs|e]; cbn [Py.bind]; [|discriminate].
  intros [= <-]; split; [|split].
  - unfold model_data; apply Forall_forall; intros f Hf.
    apply in_map_iff in Hf as (r & <- & _); reflexivity.
  - intro Hempty; rewrite Hempty in Hts.
    apply team_stats_Ok_inv in Hts; cbn in Hts; subst ts.
    cbn [merge_seeds merge_left flat_map].
    rewrite merge_tourney_results_unique by constructor.
    unfold model_data; rewrite map_map; reflexivity.
  - intros ->; reflexivity.
Qed.

Lemma labels_and_empty_tables_witness :
  let inp :=
    {| season_results := [];
       tourney_results :=
         [played 2024 1101 88 1102 75; played 2024 1103 60 1104 59];
       seeds := fresh_seeds [mkSeed 2024 "W02" 1101] |} in
  exists rows,
    feature_table pandas_2 inp = Ok rows /\
    rows = [missing_features; missing_features] /\
    Forall (fun f => Result f = 1) rows.
Proof.
  intro inp.
  destruct (feature_table pandas_2 inp) as [rows|e] eqn:Hrun;
    [|vm_compute in Hrun; discriminate Hrun].
  destruct (labels_and_empty_tables pandas_2 inp rows Hrun)
    as (Hlabels & Hseason & _).
  exists rows; repeat split; [|assumption].
  apply Hseason; reflexivity.
Defined.







(** ** Python's [int] *)

Lemma digits_of_digits (ds : list ascii) (acc : Z) :
  Forall (fun c => is_digit c = true) ds ->
  digits acc ds =
  Some (fold_left (fun a c => 10 * a + digit_value c) ds acc, []).
Proof.
  intro H; revert acc; induction H as [|c ds Hc Hds IH]; intro acc;
    cbn [digits fold_left]; [reflexivity|].
  now rewrite Hc, IH.
Qed.

Lemma unsigned_literal_of_digits (ds : list ascii) :
  ds <> [] -> Forall (fun c => is_digit c = true) ds ->
  unsigned_literal ds = Some (decimal_value ds).
Proof.
  intros Hne H; destruct H as [|c ds Hc Hds]; [congruence|].
  unfold unsigned_literal, decimal_value; rewrite Hc.
  rewrite digits_of_digits by assumption; cbn [skip_spaces fold_left].
  reflexivity.
Qed.

(** X16: [int] reads a non-empty string of decimal digits, with any number
    of leading zeros, as its decimal value; a leading "+" leaves the value
    and a leading "-" gives its opposite.  The statement stops at 4300
    digits, the interpreter's limit for such conversions. *)
Theorem int_of_decimal_digits (ds : list ascii) :
  ds <> [] -> (List.length ds <= 4300)%nat ->
  Forall (fun c => is_digit c = true) ds ->
  Py.int (string_of_list_ascii ds) = Ok (decimal_value ds) /\
  Py.int (String "+" (string_of_list_ascii ds)) = Ok (decimal_value ds) /\
  Py.int (String "-" (string_of_list_ascii ds)) = Ok (- decimal_value ds).
Proof.
  intros Hne _ Hds.
  pose proof (unsigned_literal_of_digits ds Hne Hds) as Hlit.
  unfold Py.int; cbn [list_ascii_of_string].
  rewrite list_ascii_of_string_of_list_ascii.
  split; [|split].
  - destruct ds as [|c ds]; [congruence|].
    inversion Hds as [|? ? Hc _]; subst.
    destruct (digit_facts c Hc) as (Hs & Hp & Hm).
    cbn [skip_spaces]; rewrite Hs, Hp, Hm, Hlit; reflexivity.
  - cbn [skip_spaces]; change (is_space "+") with false; cbn iota.
    change (Ascii.eqb "+" "+") with true; cbn iota.
    now rewrite Hlit.
  - cbn [skip_spaces]; change (is_space "-") with false; cbn iota.
    change (Ascii.eqb "-" "+") with false; change (Ascii.eqb "-" "-") with true.
    cbn iota; now rewrite Hlit.
Qed.

Lemma int_of_decimal_digits_witness :
  Py.int "0016" = Ok 16 /\ Py.int "+0016" = Ok 16 /\ Py.int "-0016" = Ok (-16).
Proof.
  apply (int_of_decimal_digits ["0"; "0"; "1"; "6"]%char).
  - discriminate.
  - simpl; lia.
  - repeat constructor.
Defined.

(** ** Seed differences and batches of games *)

Lemma merge_seeds_SeedValue (ts : list TeamStats) (sv : list (Z * Z))
    (t : SeededTeamStats) :
  In t (merge_seeds ts sv) ->
  (SeedValue t = NaN /\ ~ In (stats_key t) (map fst sv)) \/
  (exists v, In (stats_key t, v) sv /\ SeedValue t = of_int v).
Proof.
  unfold merge_seeds; rewrite merge_left_partners; intro H.
  apply in_flat_map in H as (x & _ & H).
  apply in_map_iff in H as (p & <- & Hp).
  unfold stats_key; cbn [stats SeedValue].
  apply partners_cases in Hp as [[-> Habs]|(e & -> & He & Hk)].
  - left; split; [reflexivity|assumption].
  - right; exists (snd e); split; [|reflexivity].
    rewrite <- Hk; now destruct e.
Qed.

Lemma fsub_of_int (a b : Z) : fsub (of_int a) (of_int b) = of_int (a - b).
Proof.
  unfold fsub, of_int, fin; f_equal; apply Qred_complete.
  rewrite !Qred_correct; unfold Zminus.
  rewrite inject_Z_plus, inject_Z_opp; reflexivity.
Qed.

(** X17: the seed difference of a feature row is missing as soon as the
    winner or the loser has no seed entry (or no row in [team_stats]);
    otherwise it is the integer [vw - vl] for a seed value [vw] listed for
    the winner and a seed value [vl] listed for the loser. *)
Theorem SeedValue_Diff_of_a_row
    (ts : list TeamStats) (sv : list (Z * Z)) (tr : list GameRecord)
    (r : JoinedRow) :
  In r (merge_tourney_results tr (merge_seeds ts sv)) ->
  (~ In (WTeamID (game r)) (map fst sv) \/ ~ In (LTeamID (game r)) (map fst sv) ->
   SeedValue_Diff (features r) = NaN) /\
  (SeedValue_Diff (features r) = NaN \/
   exists vw vl,
     In (WTeamID (game r), vw) sv /\ In (LTeamID (game r), vl) sv /\
     SeedValue_Diff (features r) = of_int (vw - vl)).
Proof.
  intro Hr.
  apply in_merge_tourney_results in Hr as (g & w & l & _ & Hw & Hl & ->).
  cbn [game join_row features SeedValue_Diff W_SeedValue L_SeedValue].
  assert (forall k (p : option SeededTeamStats),
            In p (partners stats_key k (merge_seeds ts sv)) ->
            (cell SeedValue p = NaN) \/
            (exists v, In (k, v) sv /\ cell SeedValue p = of_int v)) as Hside.
  { intros k p Hp; apply partners_cases in Hp as [[-> _]|(t & -> & Ht & Hk)];
      [now left|].
    apply merge_seeds_SeedValue in Ht as [[Hnan _]|(v & Hv & Hval)];
      [now left|right].
    exists v; rewrite <- Hk; now split. }
  destruct (Hside _ _ Hw) as [Hnw|(vw & Hvw & Hw')];
    destruct (Hside _ _ Hl) as [Hnl|(vl & Hvl & Hl')].
  - rewrite Hnw; split; [reflexivity|now left].
  - rewrite Hnw; split; [reflexivity|now left].
  - rewrite Hnl, fsub_NaN_r; split; [reflexivity|now left].
  - rewrite Hw', Hl', fsub_of_int; split.
    + intros [Habs|Habs]; exfalso; apply Habs.
      * apply in_map_iff; now exists (WTeamID g, vw).
      * apply in_map_iff; now exists (LTeamID g, vl).
    + right; now exists vw, vl.
Qed.

Lemma SeedValue_Diff_of_a_row_witness :
  let ts := map (team_row scenario_season) [1101; 1102; 1103] in
  let r := join_row (played 2024 1101 88 1102 75)
             (nth_error (merge_seeds ts [(1101, 2)]) 0)
             (nth_error (merge_seeds ts [(1101, 2)]) 1) in
  SeedValue_Diff (features r) = NaN.
Proof.
  intros ts r.
  apply (SeedValue_Diff_of_a_row ts [(1101, 2)] [played 2024 1101 88 1102 75] r).
  - vm_compute; tauto.
  - right; vm_compute; intuition discriminate.
Defined.

(** X18: tournament games are handled one by one: the feature rows of two
    tournament tables put end to end are the feature rows of the first
    followed by those of the second, so the rows of a game do not depend on
    the other games of the table. *)
Theorem features_of_appended_games
    (tr1 tr2 : list GameRecord) (ts : list SeededTeamStats) :
  model_data (merge_tourney_results (tr1 ++ tr2) ts) =
  model_data (merge_tourney_results tr1 ts) ++
  model_data (merge_tourney_results tr2 ts).
Proof.
  rewrite !merge_tourney_results_rows; unfold model_data.
  now rewrite flat_map_app, map_app.
Qed.
